(** * Kata containerd shim: IsEphemeralStorage, delete / cleanup, start

    A shallow embedding of [containerd-shim/kata/utils.go],
    [containerd-shim/kata/delete.go] and [containerd-shim/kata/start.go],
    together with the proxy-type registry exercised by
    [virtcontainers/proxy_test.go].

    Go strings are byte strings: [string] (a list of [ascii]).  Go maps are
    [gmap]s.  Pointers ([*container], [*exec]) are locations into a store,
    so that a container reached through [s.containers] and through the
    argument [c] is one object. *)

From Stdlib Require Import Ascii String NArith ZArith Lia.
From stdpp Require Import base strings gmap list.

Local Open Scope string_scope.

(** ** Package [strings] of the Go library *)

Module strings.

(** [strings.Split(s, sep)] for a separator of one byte, which is how the
    shim calls it: the pieces of [s] between the occurrences of [sep], in
    order, one more than there are occurrences. *)
Fixpoint Split (s : string) (sep : ascii) : list string :=
  match s with
  | EmptyString => [EmptyString]
  | String ch rest =>
      if Ascii.eqb ch sep then EmptyString :: Split rest sep
      else match Split rest sep with
           | piece :: pieces => String ch piece :: pieces
           | [] => [String ch EmptyString]
           end
  end.

(** [strings.Count(s, sep)] for a separator of one byte. *)
Fixpoint Count (s : string) (sep : ascii) : nat :=
  match s with
  | EmptyString => 0
  | String ch rest => (if Ascii.eqb ch sep then 1 else 0) + Count rest sep
  end.

(** [strings.Join(elems, sep)] for a separator of one byte. *)
Fixpoint Join (elems : list string) (sep : ascii) : string :=
  match elems with
  | [] => EmptyString
  | [piece] => piece
  | piece :: pieces => piece +:+ String sep (Join pieces sep)
  end.

End strings.

(** ** utils.go: IsEphemeralStorage *)

Definition k8sEmptyDir : string := "kubernetes.io~empty-dir".

(** Indexing [splitSourceSlice[len-2]] is in range under the guard
    [len > 1]; the [None] branch is the out-of-range panic that the guard
    excludes (lemma [IsEphemeralStorage_index_in_range]). *)
Definition IsEphemeralStorage (path : string) : bool :=
  let splitSourceSlice := strings.Split path "/" in
  if (1 <? length splitSourceSlice)%nat then
    match splitSourceSlice !! (length splitSourceSlice - 2) with
    | Some storageType =>
        if String.eqb storageType k8sEmptyDir then true else false
    | None => false
    end
  else false.

(** The component before the last one, read from the end of the list: the
    wording of the specification, to compare with the index arithmetic of
    the code. *)
Definition second_to_last (components : list string) : option string :=
  match rev components with
  | _ :: before_last :: _ => Some before_last
  | _ => None
  end.

(** A path has no separator when none of its bytes is ["/"]. *)
Definition has_no_separator (path : string) : Prop :=
  "/"%char ∉ list_ascii_of_string path.

(** ** Errors *)

(** A Go [error] value, by its message. *)
Abbreviation error := string (only parsing).

(** ** virtcontainers: the proxy-type registry

    [virtcontainers/proxy.go] is not among the sources; only its tests are.
    The registry is modelled from the specification and from what the tests
    call. *)

Module proxy.

(** Modelled from the spec: the type [ProxyType] of proxy.go (section 3):
    the four named strategies, and the zero value of the type, which is
    what [var proxyType ProxyType] holds in the tests. *)
Inductive ProxyType :=
| ZeroProxyType
| NoProxyType
| KataProxyType
| KataBuiltInProxyType
| NoopProxyType.

(** Modelled from the spec: the strategy objects of proxy.go, which the
    tests write [&noProxy{}], [&kataProxy{}], [&kataBuiltInProxy{}] and
    [&noopProxy{}]. *)
Inductive proxy := noProxy | kataProxy | kataBuiltInProxy | noopProxy.

(** Modelled from the spec: [ProxyType.Set] of proxy.go, the "parse"
    of section 4.1.  It maps exactly the four tokens to their values; any
    other text fails with an "unknown proxy type" error and leaves the
    target as the caller had it.  The receiver is a pointer: the target
    is passed in and the (possibly updated) target is returned with the
    error. *)
Definition ProxyType_Set (value : string) (pType : ProxyType)
  : ProxyType * option error :=
  if String.eqb value "noProxy" then (NoProxyType, None)
  else if String.eqb value "kataProxy" then (KataProxyType, None)
  else if String.eqb value "kataBuiltInProxy" then (KataBuiltInProxyType, None)
  else if String.eqb value "noopProxy" then (NoopProxyType, None)
  else (pType, Some ("unknown proxy type " +:+ value)).

(** Modelled from the spec: [ProxyType.String] of proxy.go, the
    "format" of section 4.1: the inverse mapping, the zero value giving
    the empty string. *)
Definition ProxyType_String (pType : ProxyType) : string :=
  match pType with
  | NoProxyType => "noProxy"
  | KataProxyType => "kataProxy"
  | KataBuiltInProxyType => "kataBuiltInProxy"
  | NoopProxyType => "noopProxy"
  | ZeroProxyType => ""
  end.

(** Modelled from the spec: [newProxy] of proxy.go, the "construct" of
    section 4.1: the strategy object of each of the four types, and for
    the zero value a default variant without error.  The spec does not
    say which variant is the default: it is the parameter
    [default_proxy]. *)
Definition newProxy (default_proxy : proxy) (pType : ProxyType)
  : proxy * option error :=
  match pType with
  | NoProxyType => (noProxy, None)
  | KataProxyType => (kataProxy, None)
  | KataBuiltInProxyType => (kataBuiltInProxy, None)
  | NoopProxyType => (noopProxy, None)
  | ZeroProxyType => (default_proxy, None)
  end.

(** The recognised tokens with their values, as the tests pair them. *)
Definition tokens : list (string * ProxyType) :=
  [ ("noProxy", NoProxyType);
    ("kataProxy", KataProxyType);
    ("kataBuiltInProxy", KataBuiltInProxyType);
    ("noopProxy", NoopProxyType) ].

(** [testSetProxyType]: parse into a fresh variable, no error, and the
    expected value. *)
Definition testSetProxyType (value : string) (expected : ProxyType) : Prop :=
  ProxyType_Set value ZeroProxyType = (expected, None).

(** [testStringFromProxyType]. *)
Definition testStringFromProxyType (pType : ProxyType) (expected : string)
  : Prop :=
  ProxyType_String pType = expected.

End proxy.

(** ** The collaborators of the shim

    The sandbox control API ([vci], of interface type [vc.VC]), the methods
    of a fetched or attached sandbox ([vc.VCSandbox]) and the functions of
    other packages that the shim calls are outside the sources.  They are
    interfaces here: every operation acts on a world [W], the state of the
    virtual machines and of the host, and returns its Go results.  A result
    that the shim throws away ([_, err := ...]) is left out and only the
    error is returned: [None] is [nil]. *)

(** [vc.State], of which only the field [State] is read, and
    [vc.ContainerStatus], of which only [State] is read. *)
Record State := { State_State : string }.
Record ContainerStatus := { ContainerStatus_State : State }.

(** [vc.Process], of which only [Token] is read. *)
Record Process := { Token : string }.

Module vci.
Class VC (W SB : Type) := {
  FetchSandbox : string → W → (SB + error) * W;
  StatusContainer : string → string → W → (ContainerStatus + error) * W;
  KillContainer : string → string → Z → bool → W → option error * W;
  StopContainer : string → string → W → option error * W;
  DeleteContainer : string → string → W → option error * W;
  StartContainer : string → string → W → option error * W;
  StartSandbox : string → W → option error * W;
  StopSandbox : string → W → option error * W;
  DeleteSandbox : string → W → option error * W;
}.
End vci.

Module VCSandbox.
Class Methods (W SB Stream Cmd : Type) := {
  ID : SB → string;
  StatusContainer : SB → string → W → (ContainerStatus + error) * W;
  (** Only the length of the returned slice is used; the containers are
      given by their ids. *)
  GetAllContainers : SB → W → list string * W;
  IOStream : SB → string → string → W
             → (Stream * Stream * Stream + error) * W;
  EnterContainer : SB → string → Cmd → W → (Process + error) * W;
  WinsizeProcess : SB → string → string → N → N → W → option error * W;
}.
End VCSandbox.

(** Functions and constants of other packages and of files of the shim
    that are not among the sources. *)
Class Deps (W TtyIO : Type) := {
  (** [mount.UnmountAll(mount, flags)] *)
  mount_UnmountAll : string → Z → W → option error * W;
  (** [filepath.Join(a, b)] and [path.Join(a, b)] *)
  filepath_Join : string → string → string;
  path_Join : string → string → string;
  (** [oci.StateToOCIState] and [oci.StateStopped] *)
  oci_StateToOCIState : State → string;
  oci_StateStopped : string;
  (** [vc.StateStopped] *)
  vc_StateStopped : string;
  (** [(vc.ContainerType).IsSandbox] *)
  IsSandbox : string → bool;
  (** [newTtyIO(ctx, stdin, stdout, stderr, terminal)] of tty.go *)
  newTtyIO : string → string → string → bool → W → (TtyIO + error) * W;
  (** [service.pid]: a newly allocated local pid; the allocator's
      counter is kept with the world. *)
  service_pid : W → N * W;
}.

(** [syscall.SIGKILL] *)
Definition SIGKILL : Z := 9.

(** ** What a run does, in order

    Every call into a collaborator is recorded with its arguments and with
    the error it returned ([None] for [nil]); so are the launches of
    goroutines and the closing of channels. *)

Abbreviation loc := positive (only parsing).

Inductive event :=
| CallFetchSandbox (sid : string) (err : option error)
| CallSandboxStatusContainer (sandboxID cid : string)
    (status : ContainerStatus + error)
| CallStatusContainer (sid cid : string) (status : ContainerStatus + error)
| CallKillContainer (sid cid : string) (signal : Z) (all : bool)
    (err : option error)
| CallStopContainer (sid cid : string) (err : option error)
| CallDeleteContainer (sid cid : string) (err : option error)
| CallUnmountAll (target : string) (flags : Z) (err : option error)
| CallGetAllContainers (sandboxID : string) (len : nat)
| CallStopSandbox (sid : string) (err : option error)
| CallDeleteSandbox (sid : string) (err : option error)
| CallStartSandbox (sid : string) (err : option error)
| CallStartContainer (sid cid : string) (err : option error)
| CallIOStream (sandboxID cid pid : string) (err : option error)
| CallEnterContainer (sandboxID cid : string) (token : string + error)
| CallWinsizeProcess (sandboxID cid pid : string) (height width : N)
    (err : option error)
| CallNewTtyIO (stdin stdout stderr : string) (terminal : bool)
    (err : option error)
| GoIoCopy (exitIOch : option loc)
| GoWait (c : loc) (execID : string)
| Close (ch : loc).

(** Entries written through logrus. *)
Inductive log_entry :=
| Info (msg : string)
| Warn (err : error) (msg : string).

Definition is_Close (ch : loc) (ev : event) : bool :=
  match ev with Close ch' => bool_decide (ch' = ch) | _ => false end.

Definition is_GoIoCopy (ev : event) : bool :=
  match ev with GoIoCopy _ => true | _ => false end.

Definition is_CallNewTtyIO (ev : event) : bool :=
  match ev with CallNewTtyIO _ _ _ _ _ => true | _ => false end.

Definition is_CallStopContainer (ev : event) : bool :=
  match ev with CallStopContainer _ _ _ => true | _ => false end.

Definition is_CallKillContainer (ev : event) : bool :=
  match ev with CallKillContainer _ _ _ _ _ => true | _ => false end.

Definition is_CallIOStream (ev : event) : bool :=
  match ev with CallIOStream _ _ _ _ => true | _ => false end.

(** The error part of a Go result pair. *)
Definition err_of {A} (r : A + error) : option error :=
  match r with inl _ => None | inr err => Some err end.

(** [task.Status] of containerd. *)
Inductive task_Status :=
| StatusUnknown | StatusCreated | StatusRunning | StatusStopped
| StatusPaused | StatusPausing.

(** A channel [chan struct{}] on which nothing is ever sent: it is open or
    closed. *)
Inductive chan := ChanOpen | ChanClosed.

(** ** The state of the shim and the monad of its functions *)

(** How a function of the shim ends: it returns normally, it returns a
    non-nil [error], or the Go runtime panics (nil dereference, method call
    on a nil interface, close of a nil or closed channel). *)
Inductive outcome (A : Type) :=
| Ok (a : A)
| Err (err : error)
| Panic (why : string).
Arguments Ok {A} a.
Arguments Err {A} err.
Arguments Panic {A} why.

Section Shim.
Context {W SB Stream TtyIO Cmd : Type}.
Context `{!vci.VC W SB, !VCSandbox.Methods W SB Stream Cmd, !Deps W TtyIO}.

(** [tty] of exec.go. *)
Record tty := {
  tty_stdin : string;
  tty_stdout : string;
  tty_stderr : string;
  tty_height : N;
  tty_width : N;
  tty_terminal : bool;
}.

(** [exec]: the fields that start.go reads or writes.  [cmds] and [tty]
    are pointers, [None] when nil. *)
Record exec := {
  exec_cmds : option Cmd;
  exec_tty : option tty;
  exec_ttyio : option TtyIO;
  exec_id : string;
  exec_pid : N;
  exec_status : task_Status;
  exec_exitIOch : option loc;
}.

(** [container]: the fields that delete.go and start.go read or write,
    and the table of its execs.  [cType] is a [vc.ContainerType], a
    string type. *)
Record container := {
  container_id : string;
  container_cType : string;
  container_bundle : string;
  container_pid : N;
  container_stdin : string;
  container_stdout : string;
  container_stderr : string;
  container_terminal : bool;
  container_status : task_Status;
  container_exitIOch : option loc;
  container_ttyio : option TtyIO;
  container_execs : gmap string loc;
}.

(** [service]: the attached sandbox ([None] when nil), the id-indexed
    table of containers and the pid-indexed table of processes. *)
Record service := {
  sandbox : option SB;
  containers : gmap string loc;
  processes : gmap N string;
}.

(** The world of the collaborators, the [service] that [s] points to, the
    objects that [*container] and [*exec] pointers and channels refer to,
    and what the run has done and logged so far. *)
Record state := {
  world : W;
  svc : service;
  container_mem : gmap loc container;
  exec_mem : gmap loc exec;
  chan_mem : gmap loc chan;
  trace : list event;
  log : list log_entry;
}.

Definition set_world (w : W) (σ : state) : state :=
  {| world := w; svc := svc σ; container_mem := container_mem σ;
     exec_mem := exec_mem σ; chan_mem := chan_mem σ;
     trace := trace σ; log := log σ |}.

Definition set_svc (s : service) (σ : state) : state :=
  {| world := world σ; svc := s; container_mem := container_mem σ;
     exec_mem := exec_mem σ; chan_mem := chan_mem σ;
     trace := trace σ; log := log σ |}.

Definition set_container_mem (m : gmap loc container) (σ : state) : state :=
  {| world := world σ; svc := svc σ; container_mem := m;
     exec_mem := exec_mem σ; chan_mem := chan_mem σ;
     trace := trace σ; log := log σ |}.

Definition set_exec_mem (m : gmap loc exec) (σ : state) : state :=
  {| world := world σ; svc := svc σ; container_mem := container_mem σ;
     exec_mem := m; chan_mem := chan_mem σ;
     trace := trace σ; log := log σ |}.

Definition set_chan_mem (m : gmap loc chan) (σ : state) : state :=
  {| world := world σ; svc := svc σ; container_mem := container_mem σ;
     exec_mem := exec_mem σ; chan_mem := m;
     trace := trace σ; log := log σ |}.

Definition record_event (ev : event) (σ : state) : state :=
  {| world := world σ; svc := svc σ; container_mem := container_mem σ;
     exec_mem := exec_mem σ; chan_mem := chan_mem σ;
     trace := trace σ ++ [ev]; log := log σ |}.

Definition record_log (entry : log_entry) (σ : state) : state :=
  {| world := world σ; svc := svc σ; container_mem := container_mem σ;
     exec_mem := exec_mem σ; chan_mem := chan_mem σ;
     trace := trace σ; log := log σ ++ [entry] |}.

Definition M (A : Type) : Type := state → outcome A * state.

#[global] Instance M_ret : MRet M := λ A a σ, (Ok a, σ).

#[global] Instance M_bind : MBind M := λ A B k m σ,
  match m σ with
  | (Ok a, σ') => k a σ'
  | (Err err, σ') => (Err err, σ')
  | (Panic why, σ') => (Panic why, σ')
  end.

(** [return err] with a non-nil error. *)
Definition return_err {A} (err : error) : M A := λ σ, (Err err, σ).

Definition panic {A} (why : string) : M A := λ σ, (Panic why, σ).

(** [if err != nil { return err }] *)
Definition check (err : option error) : M unit :=
  if err is Some err then return_err err else mret tt.

(** A call into a collaborator: it steps the world and is recorded. *)
Definition call {A} (op : W → A * W) (ev : A → event) : M A :=
  λ σ, (Ok (op (world σ)).1,
        record_event (ev (op (world σ)).1) (set_world (op (world σ)).2 σ)).

Definition logf (entry : log_entry) : M unit :=
  λ σ, (Ok tt, record_log entry σ).

(** [go f(...)]: the launch is recorded; the goroutine itself runs
    outside the function. *)
Definition go (ev : event) : M unit := λ σ, (Ok tt, record_event ev σ).

(** Reading through a pointer. *)
Definition load_container (c : loc) : M container :=
  λ σ, match container_mem σ !! c with
       | Some cv => (Ok cv, σ)
       | None => (Panic "nil pointer dereference", σ)
       end.

Definition load_exec (e : loc) : M exec :=
  λ σ, match exec_mem σ !! e with
       | Some ev => (Ok ev, σ)
       | None => (Panic "nil pointer dereference", σ)
       end.

Definition deref {A} (p : option A) : M A :=
  if p is Some a then mret a else panic "nil pointer dereference".

(** Writing a field through a pointer. *)
Definition update_container (c : loc) (f : container → container) : M unit :=
  λ σ, match container_mem σ !! c with
       | Some cv => (Ok tt, set_container_mem (<[c := f cv]> (container_mem σ)) σ)
       | None => (Panic "nil pointer dereference", σ)
       end.

Definition update_exec (e : loc) (f : exec → exec) : M unit :=
  λ σ, match exec_mem σ !! e with
       | Some ev => (Ok tt, set_exec_mem (<[e := f ev]> (exec_mem σ)) σ)
       | None => (Panic "nil pointer dereference", σ)
       end.

Definition get_service : M service := λ σ, (Ok (svc σ), σ).

Definition update_service (f : service → service) : M unit :=
  λ σ, (Ok tt, set_svc (f (svc σ)) σ).

(** [s.sandbox] as the receiver of a method call: a nil interface
    panics. *)
Definition s_sandbox : M SB :=
  λ σ, match sandbox (svc σ) with
       | Some sb => (Ok sb, σ)
       | None => (Panic "nil pointer dereference", σ)
       end.

(** [close(ch)] *)
Definition close (ch : option loc) : M unit :=
  λ σ, match ch with
       | None => (Panic "close of nil channel", σ)
       | Some l =>
           match chan_mem σ !! l with
           | Some ChanOpen =>
               (Ok tt, record_event (Close l)
                         (set_chan_mem (<[l := ChanClosed]> (chan_mem σ)) σ))
           | Some ChanClosed => (Panic "close of closed channel", σ)
           | None => (Panic "close of nil channel", σ)
           end
       end.

Definition set_container_status (st : task_Status) (cv : container) : container :=
  {| container_id := container_id cv; container_cType := container_cType cv;
     container_bundle := container_bundle cv; container_pid := container_pid cv;
     container_stdin := container_stdin cv; container_stdout := container_stdout cv;
     container_stderr := container_stderr cv;
     container_terminal := container_terminal cv;
     container_status := st; container_exitIOch := container_exitIOch cv;
     container_ttyio := container_ttyio cv; container_execs := container_execs cv |}.

Definition set_container_ttyio (t : option TtyIO) (cv : container) : container :=
  {| container_id := container_id cv; container_cType := container_cType cv;
     container_bundle := container_bundle cv; container_pid := container_pid cv;
     container_stdin := container_stdin cv; container_stdout := container_stdout cv;
     container_stderr := container_stderr cv;
     container_terminal := container_terminal cv;
     container_status := container_status cv;
     container_exitIOch := container_exitIOch cv;
     container_ttyio := t; container_execs := container_execs cv |}.

Definition set_exec_id (id : string) (ev : exec) : exec :=
  {| exec_cmds := exec_cmds ev; exec_tty := exec_tty ev;
     exec_ttyio := exec_ttyio ev; exec_id := id; exec_pid := exec_pid ev;
     exec_status := exec_status ev; exec_exitIOch := exec_exitIOch ev |}.

Definition set_exec_pid (pid : N) (ev : exec) : exec :=
  {| exec_cmds := exec_cmds ev; exec_tty := exec_tty ev;
     exec_ttyio := exec_ttyio ev; exec_id := exec_id ev; exec_pid := pid;
     exec_status := exec_status ev; exec_exitIOch := exec_exitIOch ev |}.

Definition set_exec_status (st : task_Status) (ev : exec) : exec :=
  {| exec_cmds := exec_cmds ev; exec_tty := exec_tty ev;
     exec_ttyio := exec_ttyio ev; exec_id := exec_id ev; exec_pid := exec_pid ev;
     exec_status := st; exec_exitIOch := exec_exitIOch ev |}.

Definition set_exec_ttyio (t : option TtyIO) (ev : exec) : exec :=
  {| exec_cmds := exec_cmds ev; exec_tty := exec_tty ev;
     exec_ttyio := t; exec_id := exec_id ev; exec_pid := exec_pid ev;
     exec_status := exec_status ev; exec_exitIOch := exec_exitIOch ev |}.

Definition delete_process (pid : N) (s : service) : service :=
  {| sandbox := sandbox s; containers := containers s;
     processes := delete pid (processes s) |}.

Definition delete_container (id : string) (s : service) : service :=
  {| sandbox := sandbox s; containers := delete id (containers s);
     processes := processes s |}.

Definition insert_process (pid : N) (execID : string) (s : service) : service :=
  {| sandbox := sandbox s; containers := containers s;
     processes := <[pid := execID]> (processes s) |}.

(** ** delete.go *)

(** [c.id], [c.bundle] and [c.pid] are read once: nothing in between
    writes to the container. *)
Definition deleteContainer (c : loc) : M unit :=
  sandbox ← s_sandbox;
  cv ← load_container c;
  let sid := VCSandbox.ID sandbox in
  let id := container_id cv in
  r ← call (vci.StatusContainer sid id) (CallStatusContainer sid id);
  match r with
  | inr err => return_err err
  | inl status =>
      (if negb (String.eqb (State_State (ContainerStatus_State status))
                  vc_StateStopped)
       then
         err ← call (vci.StopContainer sid id) (CallStopContainer sid id);
         check err
       else mret tt);;
      err ← call (vci.DeleteContainer sid id) (CallDeleteContainer sid id);
      check err;;
      let rootfs := path_Join (container_bundle cv) "rootfs" in
      err ← call (mount_UnmountAll rootfs 0) (CallUnmountAll rootfs 0);
      (if err is Some err
       then logf (Warn err "failed to cleanup rootfs mount")
       else mret tt);;
      update_service (delete_process (container_pid cv));;
      update_service (delete_container id);;
      mret tt
  end.

(** ** utils.go: cleanupContainer *)

Definition cleanupContainer (sid cid bundlePath : string) : M unit :=
  logf (Info ("Cleanup container " +:+ cid));;
  let rootfs := filepath_Join bundlePath "rootfs" in
  r ← call (vci.FetchSandbox sid) (λ r, CallFetchSandbox sid (err_of r));
  match r with
  | inr err => return_err err
  | inl sandbox =>
      let sandboxID := VCSandbox.ID sandbox in
      r ← call (VCSandbox.StatusContainer sandbox cid)
               (CallSandboxStatusContainer sandboxID cid);
      match r with
      | inr err =>
          logf (Warn err ("failed to get container " +:+ cid +:+ " status"));;
          return_err err
      | inl status =>
          (if negb (String.eqb
                      (oci_StateToOCIState (ContainerStatus_State status))
                      oci_StateStopped)
           then
             err ← call (vci.KillContainer sid cid SIGKILL true)
                        (CallKillContainer sid cid SIGKILL true);
             if err is Some err
             then logf (Warn err ("failed to kill container " +:+ cid));;
                  return_err err
             else mret tt
           else mret tt);;
          err ← call (vci.StopContainer sid cid) (CallStopContainer sid cid);
          (if err is Some err
           then logf (Warn err ("failed to stop container " +:+ cid));;
                return_err err
           else mret tt);;
          err ← call (vci.DeleteContainer sid cid)
                     (CallDeleteContainer sid cid);
          (if err is Some err
           then logf (Warn err ("failed to remove container " +:+ cid))
           else mret tt);;
          err ← call (mount_UnmountAll rootfs 0) (CallUnmountAll rootfs 0);
          (if err is Some err
           then logf (Warn err ("failed to cleanup container " +:+ cid
                                +:+ " rootfs " +:+ rootfs))
           else mret tt);;
          cs ← call (VCSandbox.GetAllContainers sandbox)
                    (λ cs, CallGetAllContainers sandboxID (length cs));
          if Nat.eqb (length cs) 0 then
            err ← call (vci.StopSandbox sid) (CallStopSandbox sid);
            (if err is Some err
             then logf (Warn err ("failed to stop sandbox " +:+ sid));;
                  return_err err
             else mret tt);;
            err ← call (vci.DeleteSandbox sid) (CallDeleteSandbox sid);
            (if err is Some err
             then logf (Warn err ("failed to delete sandbox " +:+ sid));;
                  return_err err
             else mret tt);;
            mret tt
          else mret tt
      end
  end.

(** ** start.go *)

Definition startContainer (c : loc) : M unit :=
  cv ← load_container c;
  if String.eqb (container_cType cv) "" then
    return_err ("Bug, the container " +:+ container_id cv
                +:+ " type is empty")
  else
    s ← get_service;
    match sandbox s with
    | None =>
        return_err ("Bug, the sandbox hasn't been created for this container "
                    +:+ container_id cv)
    | Some sb =>
        let sid := VCSandbox.ID sb in
        let id := container_id cv in
        (if IsSandbox (container_cType cv) then
           err ← call (vci.StartSandbox sid) (CallStartSandbox sid);
           check err
         else
           err ← call (vci.StartContainer sid id) (CallStartContainer sid id);
           check err);;
        update_container c (set_container_status StatusRunning);;
        r ← call (VCSandbox.IOStream sb id id)
                 (λ r, CallIOStream sid id id (err_of r));
        match r with
        | inr err => return_err err
        | inl (stdin, stdout, stderr) =>
            cv ← load_container c;
            (if negb (String.eqb (container_stdin cv) "")
                || negb (String.eqb (container_stdout cv) "")
                || negb (String.eqb (container_stderr cv) "")
             then
               r ← call (newTtyIO (container_stdin cv) (container_stdout cv)
                           (container_stderr cv) (container_terminal cv))
                        (λ r, CallNewTtyIO (container_stdin cv)
                                (container_stdout cv) (container_stderr cv)
                                (container_terminal cv) (err_of r));
               match r with
               | inr err => return_err err
               | inl tty =>
                   update_container c (set_container_ttyio (Some tty));;
                   go (GoIoCopy (container_exitIOch cv))
               end
             else
               close (container_exitIOch cv));;
            go (GoWait c "");;
            mret tt
        end
    end.

(** Modelled from the spec: [service.getContainer] of service.go,
    which is not among the sources (section 4.4, startExec, step 1):
    resolving the named container; a failing lookup is a "not found"
    error. *)
Definition getContainer (id : string) : M loc :=
  s ← get_service;
  match containers s !! id with
  | Some c => mret c
  | None => return_err ("container does not exist " +:+ id +:+ ": not found")
  end.

(** Modelled from the spec: [container.getExec] of container.go, which
    is not among the sources (section 4.4, startExec, step 1): resolving
    the named exec entry; a failing lookup is a "not found" error. *)
Definition getExec (c : loc) (id : string) : M loc :=
  cv ← load_container c;
  match container_execs cv !! id with
  | Some e => mret e
  | None => return_err ("exec does not exist " +:+ id +:+ ": not found")
  end.

(** [s.pid()]: it steps the world and is not recorded. *)
Definition s_pid : M N :=
  λ σ, (Ok (service_pid (world σ)).1, set_world (service_pid (world σ)).2 σ).

Definition startExec (containerID execID : string) : M loc :=
  c ← getContainer containerID;
  execs ← getExec c execID;
  ev ← load_exec execs;
  cmds ← deref (exec_cmds ev);
  sb ← s_sandbox;
  let sid := VCSandbox.ID sb in
  r ← call (VCSandbox.EnterContainer sb containerID cmds)
           (λ r, CallEnterContainer sid containerID
                   (match r with inl proc => inl (Token proc)
                               | inr err => inr err end));
  match r with
  | inr err =>
      return_err ("cannot enter container " +:+ containerID
                  +:+ ", with err " +:+ err)
  | inl proc =>
      update_exec execs (set_exec_id (Token proc));;
      pid ← s_pid;
      update_exec execs (set_exec_pid pid);;
      update_service (insert_process pid execID);;
      update_exec execs (set_exec_status StatusRunning);;
      ev ← load_exec execs;
      t ← deref (exec_tty ev);
      cv ← load_container c;
      (if negb (N.eqb (tty_height t) 0) && negb (N.eqb (tty_width t) 0) then
         err ← call (VCSandbox.WinsizeProcess sb (container_id cv) (exec_id ev)
                       (tty_height t) (tty_width t))
                    (CallWinsizeProcess sid (container_id cv) (exec_id ev)
                       (tty_height t) (tty_width t));
         check err
       else mret tt);;
      r ← call (VCSandbox.IOStream sb (container_id cv) (exec_id ev))
               (λ r, CallIOStream sid (container_id cv) (exec_id ev)
                       (err_of r));
      match r with
      | inr err => return_err err
      | inl (stdin, stdout, stderr) =>
          r ← call (newTtyIO (tty_stdin t) (tty_stdout t) (tty_stderr t)
                      (tty_terminal t))
                   (λ r, CallNewTtyIO (tty_stdin t) (tty_stdout t)
                           (tty_stderr t) (tty_terminal t) (err_of r));
          match r with
          | inr err => return_err err
          | inl tty =>
              update_exec execs (set_exec_ttyio (Some tty));;
              go (GoIoCopy (exec_exitIOch ev));;
              go (GoWait c execID);;
              mret execs
          end
      end
  end.

End Shim.

(** How many of the events satisfy [p]. *)
Definition count_events (p : event → bool) (evs : list event) : nat :=
  length (List.filter p evs).

(** What the specification says of [cleanupContainer], step 3 ("if not
    stopped, kill then stop"): in a run where the queried state translates
    to stopped, neither a kill nor a stop is among the calls of the run. *)
Definition kill_and_stop_only_when_not_stopped
    {W SB Stream TtyIO Cmd : Type}
    `{!vci.VC W SB, !VCSandbox.Methods W SB Stream Cmd, !Deps W TtyIO}
    (sid cid bundlePath : string) (σ : @state W SB TtyIO Cmd) : Prop :=
  ∀ new sandboxID status,
    trace (cleanupContainer sid cid bundlePath σ).2 = (trace σ ++ new)%list →
    CallSandboxStatusContainer sandboxID cid (inl status) ∈ new →
    oci_StateToOCIState (ContainerStatus_State status) = oci_StateStopped →
    count_events is_CallKillContainer new = 0 ∧
    count_events is_CallStopContainer new = 0.

(** ** A test double of the collaborators

    One sandbox, whose containers are listed with their state; the
    operations named in [failing] return an error.  It stands in for the
    collaborators in the concrete runs below, as [vcmock] does in the tests
    of the shim. *)

Module Mock.

Record World := {
  states : list (string * string);
  failing : list string;
  next_pid : N;
}.

Definition fails (op : string) (w : World) : bool :=
  existsb (String.eqb op) (failing w).

Definition result (op : string) (w : World) : option error :=
  if fails op w then Some ("mock: " +:+ op +:+ " failed") else None.

Definition status_of (cid : string) (w : World) : ContainerStatus + error :=
  match List.find (λ p, String.eqb p.1 cid) (states w) with
  | Some p => inl {| ContainerStatus_State := {| State_State := p.2 |} |}
  | None => inr ("mock: no container " +:+ cid)
  end.

Definition set_state (cid st : string) (w : World) : World :=
  {| states := List.map (λ p, if String.eqb p.1 cid then (p.1, st) else p)
                 (states w);
     failing := failing w; next_pid := next_pid w |}.

Definition remove (cid : string) (w : World) : World :=
  {| states := List.filter (λ p, negb (String.eqb p.1 cid)) (states w);
     failing := failing w; next_pid := next_pid w |}.

(** An operation that fails leaves the world as it is. *)
Definition op (name : string) (effect : World → World) (w : World)
  : option error * World :=
  match result name w with
  | Some err => (Some err, w)
  | None => (None, effect w)
  end.

#[global] Instance mock_VC : vci.VC World string := {|
  vci.FetchSandbox sid w :=
    match result "FetchSandbox" w with
    | Some err => (inr err, w)
    | None => (inl sid, w)
    end;
  vci.StatusContainer _ cid w :=
    match result "StatusContainer" w with
    | Some err => (inr err, w)
    | None => (status_of cid w, w)
    end;
  vci.KillContainer _ cid _ _ := op "KillContainer" id;
  vci.StopContainer _ cid := op "StopContainer" (set_state cid "stopped");
  vci.DeleteContainer _ cid := op "DeleteContainer" (remove cid);
  vci.StartContainer _ cid := op "StartContainer" (set_state cid "running");
  vci.StartSandbox _ := op "StartSandbox" id;
  vci.StopSandbox _ := op "StopSandbox" id;
  vci.DeleteSandbox _ := op "DeleteSandbox" id;
|}.

#[global] Instance mock_Sandbox
  : VCSandbox.Methods World string N (list string) := {|
  VCSandbox.ID sb := sb;
  VCSandbox.StatusContainer _ cid w := (status_of cid w, w);
  VCSandbox.GetAllContainers _ w := (List.map fst (states w), w);
  VCSandbox.IOStream _ _ _ w :=
    match result "IOStream" w with
    | Some err => (inr err, w)
    | None => (inl (0%N, 1%N, 2%N), w)
    end;
  VCSandbox.EnterContainer _ cid _ w :=
    match result "EnterContainer" w with
    | Some err => (inr err, w)
    | None => (inl {| Token := "token-" +:+ cid |}, w)
    end;
  VCSandbox.WinsizeProcess _ _ _ _ _ := op "WinsizeProcess" id;
|}.

#[global] Instance mock_Deps : Deps World unit := {|
  mount_UnmountAll _ _ := op "UnmountAll" id;
  filepath_Join a b := a +:+ "/" +:+ b;
  path_Join a b := a +:+ "/" +:+ b;
  oci_StateToOCIState st :=
    if String.eqb (State_State st) "ready" then "created"
    else if String.eqb (State_State st) "running" then "running"
    else if String.eqb (State_State st) "stopped" then "stopped"
    else if String.eqb (State_State st) "paused" then "paused"
    else "";
  oci_StateStopped := "stopped";
  vc_StateStopped := "stopped";
  IsSandbox cType := String.eqb cType "pod_sandbox";
  newTtyIO _ _ _ _ w :=
    match result "newTtyIO" w with
    | Some err => (inr err, w)
    | None => (inl tt, w)
    end;
  service_pid w :=
    (next_pid w,
     {| states := states w; failing := failing w;
        next_pid := N.succ (next_pid w) |});
|}.

(** A sandbox ["sb1"] whose only container ["c1"] is in state [st]. *)
Definition one_container (st : string) (failing : list string) : World :=
  {| states := [("c1", st)]; failing := failing; next_pid := 100 |}.

(** An exec entry created with a terminal of 24 rows and 80 columns. *)
Definition tty1 : tty :=
  {| tty_stdin := "/run/e1/stdin"; tty_stdout := "/run/e1/stdout";
     tty_stderr := ""; tty_height := 24; tty_width := 80;
     tty_terminal := true |}.

Definition ex1 : @exec unit (list string) :=
  {| exec_cmds := Some ["/bin/sh"];
     exec_tty := Some tty1;
     exec_ttyio := None; exec_id := ""; exec_pid := 0;
     exec_status := StatusCreated; exec_exitIOch := Some 2%positive |}.

(** The container ["c1"], with a type or without, created without I/O
    paths. *)
Definition cv1 (cType : string) : @container unit :=
  {| container_id := "c1"; container_cType := cType;
     container_bundle := "/run/bundle/c1"; container_pid := 7;
     container_stdin := ""; container_stdout := ""; container_stderr := "";
     container_terminal := false; container_status := StatusCreated;
     container_exitIOch := Some 1%positive; container_ttyio := None;
     container_execs := {[ "e1" := 1%positive ]} |}.

(** A shim that serves the sandbox ["sb1"] and knows the container ["c1"]
    at location 1, nothing done or logged yet. *)
Definition shim (cType : string) (w : World)
  : @state World string unit (list string) :=
  {| world := w;
     svc := {| sandbox := Some "sb1";
               containers := {[ "c1" := 1%positive ]};
               processes := {[ 7%N := "" ]} |};
     container_mem := {[ 1%positive := cv1 cType ]};
     exec_mem := {[ 1%positive := ex1 ]};
     chan_mem := {[ 1%positive := ChanOpen; 2%positive := ChanOpen ]};
     trace := []; log := [] |}.

End Mock.

(** ** utils.go: resolvePath *)

(** The functions of [path/filepath] and [os] that [resolvePath] calls.
    They read the file system and the working directory, which are taken
    as fixed during the call.  [os_IsNotExist] tells whether an error
    reports a missing file. *)
Class Files := {
  filepath_Abs : string → string + error;
  filepath_EvalSymlinks : string → string + error;
  os_IsNotExist : error → bool;
}.

(** The Go result pair [(string, error)]: [None] is [nil]. *)
Definition resolvePath `{!Files} (path : string) : string * option error :=
  if String.eqb path "" then ("", Some "path must be specified")
  else
    match filepath_Abs path with
    | inr err => ("", Some err)
    | inl absolute =>
        match filepath_EvalSymlinks absolute with
        | inr err =>
            if os_IsNotExist err
            then ("", Some ("file " +:+ absolute +:+ " does not exist"))
            else ("", Some err)
        | inl resolved => (resolved, None)
        end
    end.

(** ** utils.go: getAddress *)

(** What [getAddress] calls: [validCreateParams] of the shim,
    [oci.ParseConfigJSON], the methods [ContainerType] and [SandboxID] of
    the parsed specification, [cdshim.SocketAddress], and the constant
    [vc.PodContainer].  None of them is among the sources. *)
Class Bundles (Ctx CompatOCISpec : Type) := {
  validCreateParams : string → string → string + error;
  oci_ParseConfigJSON : string → CompatOCISpec + error;
  ContainerType : CompatOCISpec → string + error;
  SandboxID : CompatOCISpec → string + error;
  cdshim_SocketAddress : Ctx → string → string + error;
  vc_PodContainer : string;
}.

Definition getAddress {Ctx CompatOCISpec : Type}
    `{!Bundles Ctx CompatOCISpec}
    (ctx : Ctx) (bundlePath id : string) : string * option error :=
  match validCreateParams id bundlePath with
  | inr err => ("", Some err)
  | inl bundlePath =>
      match oci_ParseConfigJSON bundlePath with
      | inr err => ("", Some err)
      | inl ociSpec =>
          match ContainerType ociSpec with
          | inr err => ("", Some err)
          | inl containerType =>
              if String.eqb containerType vc_PodContainer then
                match SandboxID ociSpec with
                | inr err => ("", Some err)
                | inl sandboxID =>
                    match cdshim_SocketAddress ctx sandboxID with
                    | inr err => ("", Some err)
                    | inl address => (address, None)
                    end
                end
              else ("", None)
          end
      end
  end.

(** ** More kinds of events *)

Definition is_CallStopSandbox (ev : event) : bool :=
  match ev with CallStopSandbox _ _ => true | _ => false end.

Definition is_CallDeleteSandbox (ev : event) : bool :=
  match ev with CallDeleteSandbox _ _ => true | _ => false end.

Definition is_CallStartSandbox (ev : event) : bool :=
  match ev with CallStartSandbox _ _ => true | _ => false end.

Definition is_CallStartContainer (ev : event) : bool :=
  match ev with CallStartContainer _ _ _ => true | _ => false end.

Definition is_CallWinsizeProcess (ev : event) : bool :=
  match ev with CallWinsizeProcess _ _ _ _ _ _ => true | _ => false end.

(** The steps of [cleanupContainer] that release something: the delete of
    the container, the unmount, the count of the containers left, and the
    stop and delete of the sandbox. *)
Definition is_teardown (ev : event) : bool :=
  match ev with
  | CallDeleteContainer _ _ _ | CallUnmountAll _ _ _
  | CallGetAllContainers _ _ | CallStopSandbox _ _
  | CallDeleteSandbox _ _ => true
  | _ => false
  end.

(** The launch of a goroutine or the closing of a channel. *)
Definition is_background (ev : event) : bool :=
  match ev with
  | GoIoCopy _ | GoWait _ _ | Close _ => true
  | _ => false
  end.

(** ** More fixtures for concrete runs *)

Module Fixtures.

(** A small file system: the working directory is ["/cwd"], ["/cwd/link"]
    is a link to ["/data/real"], ["/loop"] is a link to itself, and nothing
    else exists. *)
#[global] Instance files : Files := {|
  filepath_Abs p :=
    if String.prefix "/" p then inl p else inl ("/cwd/" +:+ p);
  filepath_EvalSymlinks p :=
    if String.eqb p "/cwd/link" then inl "/data/real"
    else if String.eqb p "/data/real" then inl "/data/real"
    else if String.eqb p "/loop" then inr "too many links"
    else inr "no such file or directory";
  os_IsNotExist err := String.eqb err "no such file or directory";
|}.

(** Bundles whose specification is given by the path itself: the bundle
    ["/pod/<sandbox>"] holds a pod container of that sandbox, any other
    one a sandbox; the empty id is refused.  The socket of a sandbox is
    ["/sock/<namespace>/<sandbox>"]. *)
#[global] Instance bundles : Bundles string (string * string) := {|
  validCreateParams id bundlePath :=
    if String.eqb id "" then inr "Missing container ID" else inl bundlePath;
  oci_ParseConfigJSON bundlePath :=
    if String.prefix "/pod/" bundlePath
    then inl ("pod_container",
              String.substring 5 (String.length bundlePath - 5) bundlePath)
    else inl ("pod_sandbox", "");
  ContainerType ociSpec := inl ociSpec.1;
  SandboxID ociSpec := inl ociSpec.2;
  cdshim_SocketAddress ns sandboxID := inl ("/sock/" +:+ ns +:+ "/" +:+ sandboxID);
  vc_PodContainer := "pod_container";
|}.

(** The sandbox ["sb1"] with two running containers. *)
Definition two_containers : Mock.World :=
  {| Mock.states := [("c1", "running"); ("c2", "running")];
     Mock.failing := []; Mock.next_pid := 100 |}.


(** An exec entry created without a terminal size. *)
Definition ex0 : @exec unit (list string) :=
  {| exec_cmds := Some ["/bin/ls"];
     exec_tty := Some {| tty_stdin := ""; tty_stdout := "/run/e1/stdout";
                         tty_stderr := "/run/e1/stderr"; tty_height := 0;
                         tty_width := 0; tty_terminal := false |};
     exec_ttyio := None; exec_id := ""; exec_pid := 0;
     exec_status := StatusCreated; exec_exitIOch := Some 2%positive |}.

(** A shim with the given attached sandbox, container at location 1 and
    exec entry at location 1, and ["c2"] and pid 8 also in its tables. *)
Definition shim (sb : option string) (cv : @container unit)
    (ex : @exec unit (list string)) (w : Mock.World)
  : @state Mock.World string unit (list string) :=
  {| world := w;
     svc := {| sandbox := sb;
               containers := {[ "c1" := 1%positive; "c2" := 2%positive ]};
               processes := {[ 7%N := ""; 8%N := "" ]} |};
     container_mem := {[ 1%positive := cv ]};
     exec_mem := {[ 1%positive := ex ]};
     chan_mem := {[ 1%positive := ChanOpen; 2%positive := ChanOpen ]};
     trace := []; log := [] |}.

End Fixtures.

(** ** Tactics for runs of the shim *)

Ltac unfold_shim1 :=
  unfold mbind, M_bind, mret, M_ret, call, logf, go, check, return_err,
    panic, load_container, load_exec, deref, update_container, update_exec,
    get_service, update_service, s_sandbox, close, s_pid in *.

Ltac unfold_shim := repeat progress unfold_shim1.

(** One step of a run: case analysis on the next thing the run looks at. *)
Ltac run_step :=
  match goal with
  | H : context [match ?x with _ => _ end] |- _ =>
      lazymatch x with
      | context [match _ with _ => _ end] => fail
      | context [if _ then _ else _] => fail
      | _ => destruct x eqn:?; simpl in *
      end
  | H : context [if ?x then _ else _] |- _ =>
      lazymatch x with
      | context [match _ with _ => _ end] => fail
      | context [if _ then _ else _] => fail
      | _ => destruct x eqn:?; simpl in *
      end
  end.

Ltac run_steps :=
  repeat first [ progress rewrite lookup_insert_eq in * | run_step ].

Lemma new_events_inv {A} (l new evs : list A) :
  (l ++ evs = l ++ new)%list → new = evs.
Proof. intros H. by apply app_inv_head in H. Qed.

Lemma new_events_nil {A} (l new : list A) : l = (l ++ new)%list → new = [].
Proof.
  intros H. rewrite <- (app_nil_r l) in H at 1. by apply app_inv_head in H.
Qed.

(** The end of a run: the result and the final state are known, and so are
    the events that the run added. *)
Ltac run_end Hrun Htrace :=
  let Hr := fresh "Hr" in
  let Hs := fresh "Hs" in
  pose proof (f_equal fst Hrun) as Hr;
  pose proof (f_equal snd Hrun) as Hs;
  clear Hrun; simpl in Hr, Hs;
  try discriminate Hr; subst;
  simpl in Htrace; rewrite <- ?app_assoc in Htrace; simpl in Htrace;
  first [ apply new_events_nil in Htrace
        | apply new_events_inv in Htrace ];
  subst.

Ltac event_cases :=
  repeat match goal with
    | H : _ ∈ [] |- _ => by apply elem_of_nil in H
    | H : _ ∈ _ :: _ |- _ => apply elem_of_cons in H as [H|H]
    | H : _ ∨ _ |- _ => destruct H as [H|H]
    end;
  simplify_eq.

Ltac event_in :=
  solve [ repeat first [ apply list_elem_of_here
                       | apply list_elem_of_further ] ].

Tactic Notation "with_pre" tactic3(tac) :=
  first [ exists []; tac | eexists [_]; tac | eexists [_; _]; tac
        | eexists [_; _; _]; tac | eexists [_; _; _; _]; tac
        | eexists [_; _; _; _; _]; tac | eexists [_; _; _; _; _; _]; tac
        | eexists [_; _; _; _; _; _; _]; tac ].

(** ** Facts about [strings.Split] *)

Lemma Split_nonempty s sep : strings.Split s sep ≠ [].
Proof.
  induction s as [|ch rest IH]; simpl; [done|].
  destruct (Ascii.eqb ch sep); [done|].
  destruct (strings.Split rest sep); done.
Qed.

Lemma Split_length s sep :
  length (strings.Split s sep) = S (strings.Count s sep).
Proof.
  induction s as [|ch rest IH]; simpl; [done|].
  destruct (Ascii.eqb ch sep); simpl; [by rewrite IH|].
  pose proof (Split_nonempty rest sep) as Hne.
  destruct (strings.Split rest sep) as [|piece pieces]; [done|].
  simpl in *. done.
Qed.

Lemma Split_Join s sep : strings.Join (strings.Split s sep) sep = s.
Proof.
  induction s as [|ch rest IH]; simpl; [done|].
  destruct (Ascii.eqb_spec ch sep) as [->|Hne].
  - pose proof (Split_nonempty rest sep) as Hrest.
    simpl. destruct (strings.Split rest sep) as [|piece pieces]; [done|].
    by rewrite IH.
  - pose proof (Split_nonempty rest sep) as Hrest.
    destruct (strings.Split rest sep) as [|piece pieces]; [done|].
    simpl in *. destruct pieces; simpl in *; by rewrite <- IH.
Qed.

Lemma Split_no_separator s sep :
  strings.Count s sep = 0 → strings.Split s sep = [s].
Proof.
  induction s as [|ch rest IH]; simpl; [done|].
  destruct (Ascii.eqb ch sep); simpl; [done|].
  intros H. by rewrite IH.
Qed.

Lemma Count_no_separator s sep :
  sep ∉ list_ascii_of_string s → strings.Count s sep = 0.
Proof.
  induction s as [|ch rest IH]; simpl; [done|].
  intros Hnot. apply not_elem_of_cons in Hnot as [Hne Hrest].
  destruct (Ascii.eqb_spec ch sep) as [->|_]; [done|].
  by rewrite IH.
Qed.

Lemma second_to_last_lookup (l : list string) :
  second_to_last l =
  if (1 <? length l)%nat then l !! (length l - 2) else None.
Proof.
  unfold second_to_last.
  destruct (rev l) as [|x [|y r]] eqn:Hrev.
  - apply (f_equal (@rev _)) in Hrev. rewrite rev_involutive in Hrev.
    subst l. done.
  - apply (f_equal (@rev _)) in Hrev. rewrite rev_involutive in Hrev.
    subst l. done.
  - apply (f_equal (@rev _)) in Hrev. rewrite rev_involutive in Hrev.
    subst l. simpl. rewrite !length_app. simpl.
    replace (1 <? length (rev r) + 1 + 1)%nat with true
      by (symmetry; apply Nat.ltb_lt; lia).
    replace (length (rev r) + 1 + 1 - 2) with (length (rev r)) by lia.
    rewrite <- app_assoc. simpl.
    by rewrite list_lookup_middle.
Qed.

Lemma IsEphemeralStorage_index_in_range path :
  (1 <? length (strings.Split path "/"))%nat = true →
  is_Some (strings.Split path "/"
             !! (length (strings.Split path "/") - 2)).
Proof. intros H%Nat.ltb_lt. apply lookup_lt_is_Some. lia. Qed.

(** C10: [IsEphemeralStorage path] is true exactly when the path, split on
    ["/"], has at least two components and the second-to-last one is
    ["kubernetes.io~empty-dir"]; it is false for every path that has no
    ["/"] in it. *)
Theorem IsEphemeralStorage_iff :
  (∀ path,
     IsEphemeralStorage path = true ↔
     (2 ≤ length (strings.Split path "/"))%nat ∧
     second_to_last (strings.Split path "/") = Some k8sEmptyDir) ∧
  (∀ path, has_no_separator path → IsEphemeralStorage path = false).
Proof.
  split.
  - intros path. unfold IsEphemeralStorage.
    rewrite second_to_last_lookup. cbv zeta.
    destruct (Nat.ltb_spec 1 (length (strings.Split path "/"))) as [Hlen|Hlen].
    + destruct (strings.Split path "/"
                  !! (length (strings.Split path "/") - 2)) as [ty|] eqn:Hty.
      * destruct (String.eqb_spec ty k8sEmptyDir) as [->|Hne].
        -- split; [intros _; split; [lia|done]|done].
        -- split; [done|]. intros [_ [=]]. done.
      * split; [done|]. intros [_ [=]].
    + split; [done|]. intros [? _]. lia.
  - intros path Hno. unfold IsEphemeralStorage. cbv zeta.
    rewrite Split_length, (Count_no_separator _ _ Hno). done.
Qed.

Example Split_empty : strings.Split "" "/" = [""].
Proof. reflexivity. Qed.

Example Split_absolute :
  strings.Split "/run/vc/" "/" = [""; "run"; "vc"; ""].
Proof. reflexivity. Qed.

Example Split_plain : strings.Split "rootfs" "/" = ["rootfs"].
Proof. reflexivity. Qed.

Example IsEphemeralStorage_pod_volume :
  IsEphemeralStorage
    "/var/lib/kubelet/pods/366c3a75/volumes/kubernetes.io~empty-dir/cache-volume"
  = true.
Proof. reflexivity. Qed.

Example IsEphemeralStorage_relative :
  IsEphemeralStorage "kubernetes.io~empty-dir/x" = true.
Proof. reflexivity. Qed.

Example IsEphemeralStorage_last_component :
  IsEphemeralStorage "/volumes/kubernetes.io~empty-dir" = false.
Proof. reflexivity. Qed.

Example IsEphemeralStorage_plain :
  IsEphemeralStorage "kubernetes.io~empty-dir" = false.
Proof. reflexivity. Qed.

(** ** The proxy-type registry *)

Example TestSetKataProxyType :
  proxy.testSetProxyType "kataProxy" proxy.KataProxyType.
Proof. reflexivity. Qed.

Example TestSetNoopProxyType :
  proxy.testSetProxyType "noopProxy" proxy.NoopProxyType.
Proof. reflexivity. Qed.

Example TestSetNoProxyType :
  proxy.testSetProxyType "noProxy" proxy.NoProxyType.
Proof. reflexivity. Qed.

Example TestSetKataBuiltInProxyType :
  proxy.testSetProxyType "kataBuiltInProxy" proxy.KataBuiltInProxyType.
Proof. reflexivity. Qed.

Example TestStringFromUnknownProxyType :
  proxy.testStringFromProxyType proxy.ZeroProxyType "".
Proof. reflexivity. Qed.

Lemma ProxyType_Set_String pType start :
  pType ≠ proxy.ZeroProxyType →
  proxy.ProxyType_Set (proxy.ProxyType_String pType) start = (pType, None).
Proof. by destruct pType. Qed.

Lemma ProxyType_Set_ok value start pType :
  proxy.ProxyType_Set value start = (pType, None) →
  proxy.ProxyType_String pType = value.
Proof.
  unfold proxy.ProxyType_Set.
  repeat match goal with
    | |- context [String.eqb value ?tok] =>
        destruct (String.eqb_spec value tok) as [->|?]
    end; intros [= <-]; reflexivity.
Qed.

(** C8: for each of the four tokens, parsing the token gives its value
    whatever the target held, formatting the value gives the token back,
    parse after format and format after parse are the identity, and the
    correspondence is one to one. *)
Theorem ProxyType_round_trip :
  Forall (λ p, ∀ start,
            proxy.ProxyType_Set p.1 start = (p.2, None) ∧
            proxy.ProxyType_String p.2 = p.1 ∧
            (proxy.ProxyType_Set (proxy.ProxyType_String p.2) start).1 = p.2 ∧
            proxy.ProxyType_String (proxy.ProxyType_Set p.1 start).1 = p.1)
    proxy.tokens ∧
  (fst <$> proxy.tokens) = ["noProxy"; "kataProxy"; "kataBuiltInProxy"; "noopProxy"] ∧
  NoDup (fst <$> proxy.tokens) ∧
  NoDup (snd <$> proxy.tokens).
Proof.
  split; [|split; [reflexivity|split]].
  - repeat constructor.
  - simpl. repeat (apply NoDup_cons; split; [intros Hin; event_cases|]).
    apply NoDup_nil_2.
  - simpl. repeat (apply NoDup_cons; split; [intros Hin; event_cases|]).
    apply NoDup_nil_2.
Qed.

(** C9: parsing ["unknown"] returns an error and leaves a zero target at
    the zero value, which is none of the four proxy types; constructing a
    proxy from the zero value returns the default variant and no error. *)
Theorem ProxyType_unknown :
  (∃ err, proxy.ProxyType_Set "unknown" proxy.ZeroProxyType
          = (proxy.ZeroProxyType, Some err)) ∧
  (proxy.ZeroProxyType ∉ snd <$> proxy.tokens) ∧
  (∀ default_proxy,
     proxy.newProxy default_proxy proxy.ZeroProxyType = (default_proxy, None)).
Proof.
  split; [by eexists|]. split; [|done].
  simpl. intros Hin. event_cases.
Qed.

(** ** The shim: delete, cleanup, start *)

Section ShimProofs.
Context {W SB Stream TtyIO Cmd : Type}.
Context `{!vci.VC W SB, !VCSandbox.Methods W SB Stream Cmd, !Deps W TtyIO}.

(** C4: whenever the status query, the stop or the delete call of a run
    of [deleteContainer] returns an error, [deleteContainer] returns that
    error and the id-indexed and pid-indexed tables are as they were;
    and when a table has changed, the run returned nil and its delete
    call had succeeded. *)
Theorem deleteContainer_error (σ : state) c r σ' new :
  deleteContainer c σ = (r, σ') →
  trace σ' = (trace σ ++ new)%list →
  (∀ sid id e,
     CallStatusContainer sid id (inr e) ∈ new ∨
     CallStopContainer sid id (Some e) ∈ new ∨
     CallDeleteContainer sid id (Some e) ∈ new →
     r = Err e ∧
     containers (svc σ') = containers (svc σ) ∧
     processes (svc σ') = processes (svc σ)) ∧
  (containers (svc σ') ≠ containers (svc σ) ∨
   processes (svc σ') ≠ processes (svc σ) →
   r = Ok tt ∧ ∃ sid id, CallDeleteContainer sid id None ∈ new).
Proof.
  intros Hrun Htrace.
  unfold deleteContainer in Hrun. unfold_shim. simpl in Hrun.
  repeat run_step; run_end Hrun Htrace.
  all: split; [intros sid id e Hin; event_cases; done|].
  all: intros [Hne|Hne]; try done.
  all: split; [done|]; do 2 eexists; event_in.
Qed.

(** C3: in a run of [deleteContainer] whose status query answers stopped,
    no stop is issued and the delete is issued right after the query, for
    this container; when the delete succeeds, the rootfs under the bundle
    is unmounted, the container leaves the id-indexed table and its pid
    leaves the pid-indexed table, and the result is nil whether or not
    the unmount failed, a failure being logged as a warning. *)
Theorem deleteContainer_already_stopped (σ : state) c cv r σ' new sid id st :
  container_mem σ !! c = Some cv →
  deleteContainer c σ = (r, σ') →
  trace σ' = (trace σ ++ new)%list →
  CallStatusContainer sid id (inl st) ∈ new →
  State_State (ContainerStatus_State st) = vc_StateStopped →
  id = container_id cv ∧
  Forall (λ ev, is_CallStopContainer ev = false) new ∧
  ∃ derr rest,
    new = CallStatusContainer sid id (inl st)
          :: CallDeleteContainer sid id derr :: rest ∧
    (derr = None →
     ∃ uerr,
       rest = [CallUnmountAll (path_Join (container_bundle cv) "rootfs") 0
                 uerr] ∧
       r = Ok tt ∧
       containers (svc σ') = delete (container_id cv) (containers (svc σ)) ∧
       processes (svc σ') = delete (container_pid cv) (processes (svc σ)) ∧
       log σ' = (log σ ++ match uerr with
                          | Some err =>
                              [Warn err "failed to cleanup rootfs mount"]
                          | None => []
                          end)%list).
Proof.
  intros Hc Hrun Htrace Hst Hstopped.
  unfold deleteContainer in Hrun. unfold_shim. simpl in Hrun.
  repeat run_step; run_end Hrun Htrace; event_cases.
  all: try (rewrite Hstopped, String.eqb_refl in *; done).
  all: split; [done|]; split; [repeat constructor|].
  all: do 2 eexists; split; [done|]; intros; simplify_eq.
  all: eexists; repeat split; by rewrite ?app_nil_r.
Qed.



(** C6: when the container's [cType] is empty or the service has no
    sandbox, [startContainer] returns an error whose message starts with
    "Bug" and the whole state is as before: no call was made, nothing was
    written. *)
Theorem startContainer_bug (σ : state) c cv :
  container_mem σ !! c = Some cv →
  container_cType cv = "" ∨ sandbox (svc σ) = None →
  ∃ msg, startContainer c σ = (Err msg, σ) ∧ String.prefix "Bug" msg = true.
Proof.
  intros Hc Hbug. unfold startContainer.
  unfold mbind, M_bind, load_container at 1. rewrite Hc.
  destruct (String.eqb_spec (container_cType cv) "") as [Hty|Hty].
  - eexists. split; reflexivity.
  - destruct Hbug as [?|Hsb]; [done|].
    unfold get_service. rewrite Hsb. eexists. split; reflexivity.
Qed.

(** C5: for a container whose stdin, stdout and stderr paths are all
    empty, a run of [startContainer] that returns nil has closed the
    container's exit channel, which was open, exactly once, just before
    launching the wait; it has made no [newTtyIO] call and launched no
    [ioCopy]. *)
Theorem startContainer_no_io (σ : state) c cv σ' new :
  container_mem σ !! c = Some cv →
  container_stdin cv = "" →
  container_stdout cv = "" →
  container_stderr cv = "" →
  startContainer c σ = (Ok tt, σ') →
  trace σ' = (trace σ ++ new)%list →
  ∃ ch pre,
    container_exitIOch cv = Some ch ∧
    chan_mem σ !! ch = Some ChanOpen ∧
    chan_mem σ' !! ch = Some ChanClosed ∧
    new = (pre ++ [Close ch; GoWait c ""])%list ∧
    count_events (is_Close ch) new = 1 ∧
    count_events is_CallNewTtyIO new = 0 ∧
    count_events is_GoIoCopy new = 0.
Proof.
  intros Hc Hin Hout Herr Hrun Htrace.
  unfold startContainer in Hrun. unfold_shim. simpl in Hrun.
  run_steps; try discriminate Hrun; run_end Hrun Htrace.
  all: simplify_eq; simpl in *.
  all: rewrite ?Hin, ?Hout, ?Herr in *; simpl in *; try discriminate.
  all: eexists _, [_; _]; repeat split; try done.
  all: try apply lookup_insert_eq.
  all: unfold count_events; simpl; by rewrite bool_decide_eq_true_2.
Qed.

(** C7: for an exec entry whose terminal height and width are both
    nonzero, once [EnterContainer] has returned a token the next call of
    [startExec] is [WinsizeProcess] with the container id, the token and
    that height and width; when it fails [startExec] returns its error and
    does nothing more, and when it succeeds the I/O streams are opened
    next. *)
Theorem startExec_winsize (σ : state) containerID execID c cv e ev t
    r σ' new :
  containers (svc σ) !! containerID = Some c →
  container_mem σ !! c = Some cv →
  container_execs cv !! execID = Some e →
  exec_mem σ !! e = Some ev →
  exec_tty ev = Some t →
  tty_height t ≠ 0%N →
  tty_width t ≠ 0%N →
  startExec containerID execID σ = (r, σ') →
  trace σ' = (trace σ ++ new)%list →
  ∀ sandboxID token,
    CallEnterContainer sandboxID containerID (inl token) ∈ new →
    ∃ winsize_err rest,
      new = CallEnterContainer sandboxID containerID (inl token)
            :: CallWinsizeProcess sandboxID (container_id cv) token
                 (tty_height t) (tty_width t) winsize_err
            :: rest ∧
      match winsize_err with
      | Some err => r = Err err ∧ rest = []
      | None =>
          ∃ io_err rest',
            rest = CallIOStream sandboxID (container_id cv) token io_err
                   :: rest'
      end.
Proof.
  intros Hs Hc He Hev Ht Hh Hw Hrun Htrace sandboxID token Henter.
  apply N.eqb_neq in Hh, Hw.
  unfold startExec, getContainer, getExec in Hrun.
  unfold_shim. simpl in Hrun.
  run_steps; run_end Hrun Htrace; event_cases; simpl in *; simplify_eq.
  all: rewrite ?Hh, ?Hw in *; simpl in *; try discriminate.
  all: do 2 eexists; split; [reflexivity|]; simpl; eauto.
Qed.

(** C1: in a run of [cleanupContainer] where the fetched sandbox reports
    zero containers, the sandbox is stopped and, the stop succeeding,
    deleted, these being the last calls of the run; the error of a failing
    stop or delete of the sandbox is the result.  A failing delete of the
    container or a failing unmount is logged as a warning, the run goes on
    with the next step, and the result is nil or the error of a failing
    stop or delete of the sandbox. *)
Theorem cleanupContainer_cascade (σ : state) sid cid bundlePath
    r σ' new logged :
  cleanupContainer sid cid bundlePath σ = (r, σ') →
  trace σ' = (trace σ ++ new)%list →
  log σ' = (log σ ++ logged)%list →
  let rootfs := filepath_Join bundlePath "rootfs" in
  let from_cascade :=
    r = Ok tt ∨
    ∃ err, r = Err err ∧
           (CallStopSandbox sid (Some err) ∈ new ∨
            CallDeleteSandbox sid (Some err) ∈ new) in
  (∀ sandboxID,
     CallGetAllContainers sandboxID 0 ∈ new →
     ∃ pre,
       (∃ err,
          new = (pre ++ [CallGetAllContainers sandboxID 0;
                         CallStopSandbox sid (Some err)])%list ∧
          r = Err err) ∨
       (∃ err,
          new = (pre ++ [CallGetAllContainers sandboxID 0;
                         CallStopSandbox sid None;
                         CallDeleteSandbox sid (Some err)])%list ∧
          r = Err err) ∨
       (new = (pre ++ [CallGetAllContainers sandboxID 0;
                       CallStopSandbox sid None;
                       CallDeleteSandbox sid None])%list ∧
        r = Ok tt)) ∧
  (∀ err,
     CallDeleteContainer sid cid (Some err) ∈ new →
     Warn err ("failed to remove container " +:+ cid) ∈ logged ∧
     (∃ pre unmount_err post,
        new = (pre ++ CallDeleteContainer sid cid (Some err)
                   :: CallUnmountAll rootfs 0 unmount_err :: post)%list) ∧
     from_cascade) ∧
  (∀ err,
     CallUnmountAll rootfs 0 (Some err) ∈ new →
     Warn err ("failed to cleanup container " +:+ cid +:+ " rootfs "
               +:+ rootfs) ∈ logged ∧
     (∃ pre sandboxID len post,
        new = (pre ++ CallUnmountAll rootfs 0 (Some err)
                   :: CallGetAllContainers sandboxID len :: post)%list) ∧
     from_cascade).
Proof.
  intros Hrun Htrace Hlog rootfs from_cascade.
  subst rootfs from_cascade.
  unfold cleanupContainer in Hrun. unfold_shim. simpl in Hrun.
  run_steps.
  all: run_end Hrun Htrace.
  all: simpl in Hlog; repeat rewrite <- app_assoc in Hlog; simpl in Hlog.
  all: apply new_events_inv in Hlog; subst logged.
  all: try match goal with
         | H : (length ?l =? 0)%nat = true |- _ =>
             apply Nat.eqb_eq in H; rewrite ?H in *
         | H : (length ?l =? 0)%nat = false |- _ =>
             apply Nat.eqb_neq in H
         end.
  all: split; [|split].
  all: intros x Hin; event_cases; try congruence.
  all: try (with_pre ltac:(first
              [ by left; eexists
              | by right; left; eexists
              | by right; right ])).
  all: split; [event_in|split].
  all: try (with_pre ltac:(by do 3 eexists)).
  all: first [ by left
             | right; eexists; split; [reflexivity|];
               first [ left; event_in | right; event_in ] ].
Qed.

(** C2, amended: in a run of [cleanupContainer] the kill is issued only
    when the queried state does not translate to stopped, and a
    successful kill is followed by the stop; the stop is issued in either
    case: for a container that is already stopped no kill is issued, the
    stop comes right after the status query, and the delete follows a
    successful stop. *)
Theorem cleanupContainer_kill_only_when_not_stopped (σ : state)
    sid cid bundlePath r σ' new sandboxID status :
  cleanupContainer sid cid bundlePath σ = (r, σ') →
  trace σ' = (trace σ ++ new)%list →
  CallSandboxStatusContainer sandboxID cid (inl status) ∈ new →
  if String.eqb (oci_StateToOCIState (ContainerStatus_State status))
       oci_StateStopped
  then
    count_events is_CallKillContainer new = 0 ∧
    ∃ stop_err rest,
      new = CallFetchSandbox sid None
            :: CallSandboxStatusContainer sandboxID cid (inl status)
            :: CallStopContainer sid cid stop_err :: rest ∧
      match stop_err with
      | Some err => r = Err err ∧ rest = []
      | None =>
          ∃ delete_err rest',
            rest = CallDeleteContainer sid cid delete_err :: rest'
      end
  else
    ∃ kill_err rest,
      new = CallFetchSandbox sid None
            :: CallSandboxStatusContainer sandboxID cid (inl status)
            :: CallKillContainer sid cid SIGKILL true kill_err :: rest ∧
      match kill_err with
      | Some err => r = Err err ∧ rest = []
      | None =>
          ∃ stop_err rest',
            rest = CallStopContainer sid cid stop_err :: rest'
      end.
Proof.
  intros Hrun Htrace Hstatus.
  unfold cleanupContainer in Hrun. unfold_shim. simpl in Hrun.
  run_steps; run_end Hrun Htrace; event_cases.
  all: match goal with
       | H : negb ?b = _ |- _ => destruct b; [|]; simpl in H; try discriminate H
       end.
  all: try (split; [reflexivity|]).
  all: do 2 eexists; split; [reflexivity|]; simpl; eauto.
Qed.
End ShimProofs.

(** ** Concrete runs *)

Example cleanupContainer_last_container_run :
  let σ := Mock.shim "pod_container"
             (Mock.one_container "running" ["UnmountAll"; "DeleteSandbox"]) in
  let run := cleanupContainer "sb1" "c1" "/run/bundle/c1" σ in
  run.1 = Err "mock: DeleteSandbox failed" ∧
  trace run.2 =
    [ CallFetchSandbox "sb1" None;
      CallSandboxStatusContainer "sb1" "c1"
        (inl {| ContainerStatus_State := {| State_State := "running" |} |});
      CallKillContainer "sb1" "c1" 9 true None;
      CallStopContainer "sb1" "c1" None;
      CallDeleteContainer "sb1" "c1" None;
      CallUnmountAll "/run/bundle/c1/rootfs" 0
        (Some "mock: UnmountAll failed");
      CallGetAllContainers "sb1" 0;
      CallStopSandbox "sb1" None;
      CallDeleteSandbox "sb1" (Some "mock: DeleteSandbox failed") ].
Proof. split; reflexivity. Qed.

(** C2 as the specification words it fails: on a container that is already
    stopped, [cleanupContainer] issues no kill but does issue the stop. *)
Lemma cleanupContainer_stops_a_stopped_container :
  ¬ kill_and_stop_only_when_not_stopped "sb1" "c1" "/run/bundle/c1"
      (Mock.shim "pod_container" (Mock.one_container "stopped" [])).
Proof.
  intros Hclaim.
  destruct (Hclaim
              [ CallFetchSandbox "sb1" None;
                CallSandboxStatusContainer "sb1" "c1"
                  (inl {| ContainerStatus_State :=
                            {| State_State := "stopped" |} |});
                CallStopContainer "sb1" "c1" None;
                CallDeleteContainer "sb1" "c1" None;
                CallUnmountAll "/run/bundle/c1/rootfs" 0 None;
                CallGetAllContainers "sb1" 0;
                CallStopSandbox "sb1" None;
                CallDeleteSandbox "sb1" None ]
              "sb1"
              {| ContainerStatus_State := {| State_State := "stopped" |} |})
    as [_ Hstop].
  - reflexivity.
  - event_in.
  - reflexivity.
  - discriminate Hstop.
Qed.

(** ** The theorems at concrete runs *)

Lemma IsEphemeralStorage_iff_witness :
  has_no_separator "kubernetes.io~empty-dir" ∧
  IsEphemeralStorage "kubernetes.io~empty-dir" = false.
Proof.
  assert (Hno : has_no_separator "kubernetes.io~empty-dir")
    by (unfold has_no_separator; simpl; intros Hin; event_cases).
  split; [exact Hno|].
  exact (proj2 IsEphemeralStorage_iff "kubernetes.io~empty-dir" Hno).
Defined.

Lemma cleanupContainer_cascade_witness :
  let σ := Mock.shim "pod_container"
             (Mock.one_container "running" ["UnmountAll"; "DeleteSandbox"]) in
  let run := cleanupContainer "sb1" "c1" "/run/bundle/c1" σ in
  CallGetAllContainers "sb1" 0 ∈ trace run.2 ∧
  (∃ pre,
     (∃ err,
        trace run.2 =
          (pre ++ [CallGetAllContainers "sb1" 0;
                   CallStopSandbox "sb1" (Some err)])%list ∧
        run.1 = Err err) ∨
     (∃ err,
        trace run.2 =
          (pre ++ [CallGetAllContainers "sb1" 0; CallStopSandbox "sb1" None;
                   CallDeleteSandbox "sb1" (Some err)])%list ∧
        run.1 = Err err) ∨
     (trace run.2 =
        (pre ++ [CallGetAllContainers "sb1" 0; CallStopSandbox "sb1" None;
                 CallDeleteSandbox "sb1" None])%list ∧
      run.1 = Ok tt)) ∧
  Warn "mock: UnmountAll failed"
    "failed to cleanup container c1 rootfs /run/bundle/c1/rootfs"
    ∈ log run.2.
Proof.
  intros σ run.
  assert (Hrun : run = (run.1, run.2)) by (vm_compute; reflexivity).
  assert (Htrace : trace run.2 = (trace σ ++ trace run.2)%list)
    by (vm_compute; reflexivity).
  assert (Hlog : log run.2 = (log σ ++ log run.2)%list)
    by (vm_compute; reflexivity).
  assert (Hall : CallGetAllContainers "sb1" 0 ∈ trace run.2)
    by (vm_compute; event_in).
  assert (Hin : CallUnmountAll "/run/bundle/c1/rootfs" 0
                  (Some "mock: UnmountAll failed") ∈ trace run.2)
    by (vm_compute; event_in).
  destruct (cleanupContainer_cascade σ "sb1" "c1" "/run/bundle/c1"
              run.1 run.2 (trace run.2) (log run.2) Hrun Htrace Hlog)
    as (Hcascade & _ & Hunmount).
  split; [exact Hall|]. split.
  - exact (Hcascade "sb1" Hall).
  - apply (Hunmount "mock: UnmountAll failed" Hin).
Defined.

Lemma cleanupContainer_kill_only_when_not_stopped_witness :
  let σ := Mock.shim "pod_container" (Mock.one_container "stopped" []) in
  let run := cleanupContainer "sb1" "c1" "/run/bundle/c1" σ in
  let stopped := {| ContainerStatus_State := {| State_State := "stopped" |} |} in
  CallSandboxStatusContainer "sb1" "c1" (inl stopped) ∈ trace run.2 ∧
  count_events is_CallKillContainer (trace run.2) = 0 ∧
  ∃ stop_err rest,
    trace run.2 = CallFetchSandbox "sb1" None
                  :: CallSandboxStatusContainer "sb1" "c1" (inl stopped)
                  :: CallStopContainer "sb1" "c1" stop_err :: rest.
Proof.
  intros σ run stopped.
  assert (Hrun : run = (run.1, run.2)) by (vm_compute; reflexivity).
  assert (Htrace : trace run.2 = (trace σ ++ trace run.2)%list)
    by (vm_compute; reflexivity).
  assert (Hin : CallSandboxStatusContainer "sb1" "c1" (inl stopped)
                ∈ trace run.2)
    by (vm_compute; event_in).
  split; [exact Hin|].
  destruct (cleanupContainer_kill_only_when_not_stopped σ "sb1" "c1"
              "/run/bundle/c1" run.1 run.2 (trace run.2) "sb1" stopped
              Hrun Htrace Hin)
    as (Hkill & stop_err & rest & Hnew & _).
  split; [exact Hkill|]. by exists stop_err, rest.
Defined.

Lemma deleteContainer_already_stopped_witness :
  let σ := Mock.shim "pod_container"
             (Mock.one_container "stopped" ["UnmountAll"]) in
  let run := deleteContainer 1%positive σ in
  run.1 = Ok tt ∧
  count_events is_CallStopContainer (trace run.2) = 0 ∧
  containers (svc run.2) !! "c1" = None ∧
  processes (svc run.2) !! 7%N = None ∧
  log run.2 = [Warn "mock: UnmountAll failed" "failed to cleanup rootfs mount"].
Proof.
  intros σ run.
  assert (Hrun : run = (run.1, run.2)) by (vm_compute; reflexivity).
  assert (Htrace : trace run.2 = (trace σ ++ trace run.2)%list)
    by (vm_compute; reflexivity).
  assert (Hc : container_mem σ !! 1%positive = Some (Mock.cv1 "pod_container"))
    by (vm_compute; reflexivity).
  assert (Hin : CallStatusContainer "sb1" "c1"
                  (inl {| ContainerStatus_State :=
                            {| State_State := "stopped" |} |})
                ∈ trace run.2)
    by (vm_compute; event_in).
  destruct (deleteContainer_already_stopped σ 1%positive
              (Mock.cv1 "pod_container") run.1 run.2 (trace run.2)
              "sb1" "c1" _ Hc Hrun Htrace Hin eq_refl)
    as (_ & _ & derr & rest & Hnew & Hok).
  assert (Hderr : derr = None)
    by (vm_compute in Hnew; by injection Hnew as <- _).
  destruct (Hok Hderr) as (uerr & Hrest & Hr & Hcs & Hps & Hlog).
  split; [exact Hr|]. split; [by vm_compute|].
  split; [rewrite Hcs; apply lookup_delete_eq|].
  split; [rewrite Hps; apply lookup_delete_eq|].
  by vm_compute.
Defined.

Lemma deleteContainer_error_witness :
  let σ := Mock.shim "pod_container"
             (Mock.one_container "running" ["StopContainer"]) in
  let run := deleteContainer 1%positive σ in
  CallStopContainer "sb1" "c1" (Some "mock: StopContainer failed")
    ∈ trace run.2 ∧
  run.1 = Err "mock: StopContainer failed" ∧
  containers (svc run.2) = containers (svc σ) ∧
  processes (svc run.2) = processes (svc σ).
Proof.
  intros σ run.
  assert (Hrun : run = (run.1, run.2)) by (vm_compute; reflexivity).
  assert (Htrace : trace run.2 = (trace σ ++ trace run.2)%list)
    by (vm_compute; reflexivity).
  assert (Hin : CallStopContainer "sb1" "c1"
                  (Some "mock: StopContainer failed") ∈ trace run.2)
    by (vm_compute; event_in).
  split; [exact Hin|].
  destruct (deleteContainer_error σ 1%positive run.1 run.2 (trace run.2)
              Hrun Htrace) as [Herr _].
  apply (Herr "sb1" "c1"). right. left. exact Hin.
Defined.

Lemma startContainer_no_io_witness :
  let σ := Mock.shim "pod_container" (Mock.one_container "ready" []) in
  let run := startContainer 1%positive σ in
  run.1 = Ok tt ∧
  ∃ pre,
    chan_mem σ !! 1%positive = Some ChanOpen ∧
    chan_mem run.2 !! 1%positive = Some ChanClosed ∧
    trace run.2 = (pre ++ [Close 1%positive; GoWait 1%positive ""])%list ∧
    count_events (is_Close 1%positive) (trace run.2) = 1 ∧
    count_events is_CallNewTtyIO (trace run.2) = 0 ∧
    count_events is_GoIoCopy (trace run.2) = 0.
Proof.
  intros σ run.
  assert (Hrun : run = (Ok tt, run.2)) by (vm_compute; reflexivity).
  assert (Htrace : trace run.2 = (trace σ ++ trace run.2)%list)
    by (vm_compute; reflexivity).
  assert (Hc : container_mem σ !! 1%positive = Some (Mock.cv1 "pod_container"))
    by (vm_compute; reflexivity).
  split; [by vm_compute|].
  destruct (startContainer_no_io σ 1%positive (Mock.cv1 "pod_container")
              run.2 (trace run.2) Hc eq_refl eq_refl eq_refl Hrun Htrace)
    as (ch & pre & Hch & Hrest).
  injection Hch as <-. by exists pre.
Defined.

Lemma startContainer_bug_witness :
  let σ := Mock.shim "" (Mock.one_container "ready" []) in
  container_cType (Mock.cv1 "") = "" ∧
  ∃ msg, startContainer 1%positive σ = (Err msg, σ) ∧
         String.prefix "Bug" msg = true.
Proof.
  intros σ. split; [reflexivity|].
  assert (Hc : container_mem σ !! 1%positive = Some (Mock.cv1 ""))
    by (vm_compute; reflexivity).
  exact (startContainer_bug σ 1%positive (Mock.cv1 "") Hc
           (or_introl eq_refl)).
Defined.

Lemma startExec_winsize_witness :
  let σ := Mock.shim "pod_container"
             (Mock.one_container "running" ["WinsizeProcess"]) in
  let run := startExec "c1" "e1" σ in
  run.1 = Err "mock: WinsizeProcess failed" ∧
  trace run.2 =
    [ CallEnterContainer "sb1" "c1" (inl "token-c1");
      CallWinsizeProcess "sb1" "c1" "token-c1" 24 80
        (Some "mock: WinsizeProcess failed") ].
Proof.
  intros σ run.
  assert (Hrun : run = (run.1, run.2)) by (vm_compute; reflexivity).
  assert (Htrace : trace run.2 = (trace σ ++ trace run.2)%list)
    by (vm_compute; reflexivity).
  assert (Hs : containers (svc σ) !! "c1" = Some 1%positive)
    by (vm_compute; reflexivity).
  assert (Hc : container_mem σ !! 1%positive = Some (Mock.cv1 "pod_container"))
    by (vm_compute; reflexivity).
  assert (He : container_execs (Mock.cv1 "pod_container") !! "e1"
               = Some 1%positive)
    by (vm_compute; reflexivity).
  assert (Hev : exec_mem σ !! 1%positive = Some Mock.ex1)
    by (vm_compute; reflexivity).
  assert (Hh : tty_height Mock.tty1 ≠ 0%N) by (simpl; lia).
  assert (Hw : tty_width Mock.tty1 ≠ 0%N) by (simpl; lia).
  assert (Hin : CallEnterContainer "sb1" "c1" (inl "token-c1") ∈ trace run.2)
    by (vm_compute; event_in).
  destruct (startExec_winsize σ "c1" "e1" 1%positive
              (Mock.cv1 "pod_container") 1%positive Mock.ex1 Mock.tty1
              run.1 run.2 (trace run.2) Hs Hc He Hev eq_refl Hh Hw
              Hrun Htrace "sb1" "token-c1" Hin)
    as (werr & rest & Hnew & Hm).
  assert (Hwerr : werr = Some "mock: WinsizeProcess failed")
    by (vm_compute in Hnew; by injection Hnew as <-).
  subst werr. destruct Hm as [Hr ->]. split; [exact Hr|exact Hnew].
Defined.

(** ** IsEphemeralStorage by the shape of the path *)

Lemma append_cons ch (a b : string) : String ch a +:+ b = String ch (a +:+ b).
Proof. reflexivity. Qed.

Lemma append_nil (b : string) : "" +:+ b = b.
Proof. reflexivity. Qed.

Lemma string_app_assoc (a b c : string) : (a +:+ b) +:+ c = a +:+ b +:+ c.
Proof.
  induction a as [|ch a IH]; [done|].
  rewrite !append_cons. by f_equal.
Qed.

Lemma Split_append_sep a b sep :
  strings.Split (a +:+ String sep b) sep
  = (strings.Split a sep ++ strings.Split b sep)%list.
Proof.
  induction a as [|ch a IH]; rewrite ?append_nil, ?append_cons; simpl.
  - by rewrite Ascii.eqb_refl.
  - destruct (Ascii.eqb ch sep); [by rewrite IH|].
    rewrite IH. pose proof (Split_nonempty a sep) as Hne.
    destruct (strings.Split a sep) as [|piece pieces]; [done|]. done.
Qed.

Lemma Split_pieces_no_separator s sep :
  Forall (λ piece, sep ∉ list_ascii_of_string piece) (strings.Split s sep).
Proof.
  induction s as [|ch rest IH]; simpl.
  - repeat constructor. apply not_elem_of_nil.
  - destruct (Ascii.eqb_spec ch sep) as [->|Hne].
    + constructor; [apply not_elem_of_nil|done].
    + pose proof (Split_nonempty rest sep) as Hrest.
      destruct (strings.Split rest sep) as [|piece pieces]; [done|].
      apply Forall_cons in IH as [Hpiece Hpieces].
      constructor; [|done]. simpl.
      apply not_elem_of_cons. split; [congruence|done].
Qed.

Lemma Join_app (l1 l2 : list string) sep :
  l1 ≠ [] → l2 ≠ [] →
  strings.Join (l1 ++ l2) sep
  = strings.Join l1 sep +:+ String sep (strings.Join l2 sep).
Proof.
  intros Hl1 Hl2. induction l1 as [|x l1 IH]; [done|].
  destruct l1 as [|y l1].
  - simpl. destruct l2; [done|]. done.
  - change (strings.Join ((x :: y :: l1) ++ l2) sep)
      with (x +:+ String sep (strings.Join ((y :: l1) ++ l2) sep)).
    rewrite IH by done.
    change (strings.Join (x :: y :: l1) sep)
      with (x +:+ String sep (strings.Join (y :: l1) sep)).
    rewrite string_app_assoc. done.
Qed.

Lemma second_to_last_app (pre : list string) x y :
  second_to_last (pre ++ [x; y]) = Some x.
Proof.
  unfold second_to_last. rewrite rev_app_distr. done.
Qed.

Lemma second_to_last_inv (l : list string) x :
  second_to_last l = Some x → ∃ pre y, l = (pre ++ [x; y])%list.
Proof.
  unfold second_to_last. intros H.
  destruct (rev l) as [|y [|x' r]] eqn:Hrev; try done.
  injection H as ->.
  apply (f_equal (@rev _)) in Hrev. rewrite rev_involutive in Hrev.
  exists (rev r), y. rewrite Hrev. simpl. by rewrite <- app_assoc.
Qed.

Lemma IsEphemeralStorage_second_to_last path :
  IsEphemeralStorage path = true ↔
  second_to_last (strings.Split path "/") = Some k8sEmptyDir.
Proof.
  unfold IsEphemeralStorage. rewrite second_to_last_lookup. cbv zeta.
  destruct (1 <? length (strings.Split path "/"))%nat; [|done].
  destruct (strings.Split path "/"
              !! (length (strings.Split path "/") - 2)) as [ty|]; [|done].
  destruct (String.eqb_spec ty k8sEmptyDir) as [->|Hne]; [done|].
  split; [done|]. intros [=]. done.
Qed.

(** X1: [IsEphemeralStorage] holds exactly of the paths that end in
    ["kubernetes.io~empty-dir/<name>"] with a [name] without separator
    (possibly empty), this directory being the whole beginning of the path
    or coming right after a ["/"]. *)
Theorem IsEphemeralStorage_shape path :
  IsEphemeralStorage path = true ↔
  ∃ dir name,
    has_no_separator name ∧
    (dir = "" ∨ ∃ parent, dir = parent +:+ "/") ∧
    path = dir +:+ k8sEmptyDir +:+ "/" +:+ name.
Proof.
  rewrite IsEphemeralStorage_second_to_last. split.
  - intros Hlast.
    destruct (second_to_last_inv _ _ Hlast) as (pre & name & Hsplit).
    pose proof (Split_pieces_no_separator path "/") as Hpieces.
    rewrite Hsplit in Hpieces.
    apply Forall_app in Hpieces as [_ Hpieces].
    apply Forall_cons in Hpieces as [_ Hpieces].
    apply Forall_cons in Hpieces as [Hname _].
    pose proof (Split_Join path "/") as Hjoin. rewrite Hsplit in Hjoin.
    destruct pre as [|piece pre].
    + exists "", name. split; [done|]. split; [by left|].
      rewrite <- Hjoin. done.
    + exists (strings.Join (piece :: pre) "/" +:+ "/"), name.
      split; [done|]. split; [right; by eexists|].
      rewrite <- Hjoin. rewrite Join_app by done.
      rewrite string_app_assoc. done.
  - intros (dir & name & Hname & Hdir & ->).
    assert (Hend : strings.Split (k8sEmptyDir +:+ "/" +:+ name) "/"
                   = [k8sEmptyDir; name]).
    { change (k8sEmptyDir +:+ "/" +:+ name)
        with (k8sEmptyDir +:+ String "/" name).
      rewrite Split_append_sep.
      rewrite (Split_no_separator name) by by apply Count_no_separator.
      done. }
    destruct Hdir as [->|[parent ->]].
    + rewrite append_nil, Hend. done.
    + rewrite string_app_assoc.
      change ("/" +:+ k8sEmptyDir +:+ "/" +:+ name)
        with (String "/" (k8sEmptyDir +:+ "/" +:+ name)).
      rewrite Split_append_sep, Hend.
      apply second_to_last_app.
Qed.

Example IsEphemeralStorage_trailing_separator :
  IsEphemeralStorage "/pods/volumes/kubernetes.io~empty-dir/cache/" = false.
Proof. reflexivity. Qed.

Example IsEphemeralStorage_suffix_of_a_name :
  IsEphemeralStorage "/pods/not-kubernetes.io~empty-dir/cache" = false.
Proof. reflexivity. Qed.

(** ** utils.go: resolvePath and getAddress *)

(** X2: [resolvePath] returns a nil error exactly when the path is not
    empty and both [filepath.Abs] and [filepath.EvalSymlinks] succeed, and
    then it returns the resolved path; with every error the returned path is
    empty; an error of [EvalSymlinks] that reports a missing file is
    replaced by a message naming the absolute path, any other one is
    returned as it is. *)
Theorem resolvePath_result `{!Files} (path : string) :
  (∀ resolved,
     resolvePath path = (resolved, None) ↔
     path ≠ "" ∧
     ∃ absolute,
       filepath_Abs path = inl absolute ∧
       filepath_EvalSymlinks absolute = inl resolved) ∧
  (∀ p err, resolvePath path = (p, Some err) → p = "") ∧
  (∀ absolute err,
     path ≠ "" →
     filepath_Abs path = inl absolute →
     filepath_EvalSymlinks absolute = inr err →
     resolvePath path
     = ("", Some (if os_IsNotExist err
                  then "file " +:+ absolute +:+ " does not exist"
                  else err))).
Proof.
  unfold resolvePath. split; [|split].
  - intros resolved. split.
    + destruct (String.eqb_spec path "") as [->|Hne]; [done|].
      intros Hrun. split; [done|].
      destruct (filepath_Abs path) as [absolute|err]; [|done].
      destruct (filepath_EvalSymlinks absolute) as [r|err] eqn:Hr.
      * injection Hrun as <-. by exists absolute.
      * by destruct (os_IsNotExist err).
    + intros (Hne & absolute & Habs & Hres).
      destruct (String.eqb_spec path "") as [->|_]; [done|].
      by rewrite Habs, Hres.
  - intros p err.
    destruct (String.eqb path ""); [by intros [= <- _]|].
    destruct (filepath_Abs path) as [absolute|err']; [|by intros [= <- _]].
    destruct (filepath_EvalSymlinks absolute) as [r|err']; [done|].
    destruct (os_IsNotExist err'); by intros [= <- _].
  - intros absolute err Hne Habs Hres.
    destruct (String.eqb_spec path "") as [->|_]; [done|].
    rewrite Habs, Hres. by destruct (os_IsNotExist err).
Qed.

Example resolvePath_empty : resolvePath "" = ("", Some "path must be specified").
Proof. reflexivity. Qed.

Example resolvePath_link : resolvePath "link" = ("/data/real", None).
Proof. reflexivity. Qed.

Example resolvePath_missing :
  resolvePath "missing" = ("", Some "file /cwd/missing does not exist").
Proof. reflexivity. Qed.

Example resolvePath_loop : resolvePath "/loop" = ("", Some "too many links").
Proof. reflexivity. Qed.

(** X3: an address returned by [getAddress] is never accompanied by an
    error; a non-empty address is returned only for a pod container, and it
    is the socket address of the sandbox named in the specification found
    at the validated bundle path; for any other container type the result
    is the empty address and a nil error. *)
Theorem getAddress_result {Ctx CompatOCISpec : Type}
    `{!Bundles Ctx CompatOCISpec} (ctx : Ctx) bundlePath id address err :
  getAddress ctx bundlePath id = (address, err) →
  (err ≠ None → address = "") ∧
  (address ≠ "" →
   err = None ∧
   ∃ validated ociSpec sandboxID,
     validCreateParams id bundlePath = inl validated ∧
     oci_ParseConfigJSON validated = inl ociSpec ∧
     ContainerType ociSpec = inl vc_PodContainer ∧
     SandboxID ociSpec = inl sandboxID ∧
     cdshim_SocketAddress ctx sandboxID = inl address) ∧
  (∀ validated ociSpec containerType,
     validCreateParams id bundlePath = inl validated →
     oci_ParseConfigJSON validated = inl ociSpec →
     ContainerType ociSpec = inl containerType →
     containerType ≠ vc_PodContainer →
     address = "" ∧ err = None).
Proof.
  unfold getAddress. intros Hrun.
  assert (Hfail : ∀ e : error,
            ("", Some e) = (address, err) →
            (err ≠ None → address = "") ∧
            (address ≠ "" →
             err = None ∧
             ∃ validated ociSpec sandboxID,
               validCreateParams id bundlePath = inl validated ∧
               oci_ParseConfigJSON validated = inl ociSpec ∧
               ContainerType ociSpec = inl vc_PodContainer ∧
               SandboxID ociSpec = inl sandboxID ∧
               cdshim_SocketAddress ctx sandboxID = inl address)).
  { intros e [= <- <-]. done. }
  destruct (validCreateParams id bundlePath) as [validated|e] eqn:Hvalid.
  2: { destruct (Hfail e Hrun) as [Hempty Hpod].
       split; [done|]. split; [done|]. intros; congruence. }
  destruct (oci_ParseConfigJSON validated) as [ociSpec|e] eqn:Hparse.
  2: { destruct (Hfail e Hrun) as [Hempty Hpod].
       split; [done|]. split; [done|]. intros; congruence. }
  destruct (ContainerType ociSpec) as [containerType|e] eqn:Htype.
  2: { destruct (Hfail e Hrun) as [Hempty Hpod].
       split; [done|]. split; [done|]. intros; congruence. }
  destruct (String.eqb_spec containerType vc_PodContainer) as [->|Hne].
  - destruct (SandboxID ociSpec) as [sandboxID|e] eqn:Hsb.
    2: { destruct (Hfail e Hrun) as [Hempty Hpod].
         split; [done|]. split; [done|]. intros; congruence. }
    destruct (cdshim_SocketAddress ctx sandboxID) as [a|e] eqn:Hsock.
    2: { destruct (Hfail e Hrun) as [Hempty Hpod].
         split; [done|]. split; [done|]. intros; congruence. }
    injection Hrun as <- <-. split; [done|]. split.
    + intros _. split; [done|]. by exists validated, ociSpec, sandboxID.
    + intros; congruence.
  - injection Hrun as <- <-. split; [done|]. split; [done|]. done.
Qed.

Example getAddress_pod_container :
  getAddress "ns" "/pod/sb1" "c1" = ("/sock/ns/sb1", None).
Proof. reflexivity. Qed.

Example getAddress_sandbox : getAddress "ns" "/run/sb1" "sb1" = ("", None).
Proof. reflexivity. Qed.

Example getAddress_invalid :
  getAddress "ns" "/pod/sb1" "" = ("", Some "Missing container ID").
Proof. reflexivity. Qed.

(** ** More on cleanup and delete *)

Section ShimMore.
Context {W SB Stream TtyIO Cmd : Type}.
Context `{!vci.VC W SB, !VCSandbox.Methods W SB Stream Cmd, !Deps W TtyIO}.

(** X4: when the sandbox still reports containers after the removal,
    [cleanupContainer] leaves the sandbox alone: the count is its last
    call, no stop or delete of the sandbox is issued, and the result is nil
    whatever the delete of the container and the unmount returned. *)
Theorem cleanupContainer_sandbox_kept (σ : state) sid cid bundlePath
    r σ' new sandboxID len :
  cleanupContainer sid cid bundlePath σ = (r, σ') →
  trace σ' = (trace σ ++ new)%list →
  CallGetAllContainers sandboxID len ∈ new →
  len ≠ 0 →
  r = Ok tt ∧
  (∃ pre, new = (pre ++ [CallGetAllContainers sandboxID len])%list) ∧
  count_events is_CallStopSandbox new = 0 ∧
  count_events is_CallDeleteSandbox new = 0.
Proof.
  intros Hrun Htrace Hin Hlen.
  unfold cleanupContainer in Hrun. unfold_shim. simpl in Hrun.
  run_steps; run_end Hrun Htrace.
  all: try match goal with
         | H : (length ?l =? 0)%nat = true |- _ =>
             apply Nat.eqb_eq in H; rewrite ?H in *
         end.
  all: event_cases; try done.
  all: split; [done|]; split; [with_pre done|done].
Qed.

(** X5: a failure of the fetch of the sandbox, of the status query, of the
    kill or of the stop of the container ends [cleanupContainer] with that
    error before anything is released: no delete of the container, no
    unmount, no count of the containers, no stop or delete of the
    sandbox. *)
Theorem cleanupContainer_abort (σ : state) sid cid bundlePath
    r σ' new sandboxID err :
  cleanupContainer sid cid bundlePath σ = (r, σ') →
  trace σ' = (trace σ ++ new)%list →
  CallFetchSandbox sid (Some err) ∈ new ∨
  CallSandboxStatusContainer sandboxID cid (inr err) ∈ new ∨
  CallKillContainer sid cid SIGKILL true (Some err) ∈ new ∨
  CallStopContainer sid cid (Some err) ∈ new →
  r = Err err ∧ count_events is_teardown new = 0.
Proof.
  intros Hrun Htrace Hin.
  unfold cleanupContainer in Hrun. unfold_shim. simpl in Hrun.
  run_steps; run_end Hrun Htrace; event_cases; done.
Qed.

(** X6: [cleanupContainer] first logs that it cleans up the container; of
    the errors it returns, only that of the fetch of the sandbox goes
    unlogged: any other one is the error of the warning logged last. *)
Theorem cleanupContainer_errors_logged (σ : state) sid cid bundlePath
    r σ' new logged :
  cleanupContainer sid cid bundlePath σ = (r, σ') →
  trace σ' = (trace σ ++ new)%list →
  log σ' = (log σ ++ logged)%list →
  head logged = Some (Info ("Cleanup container " +:+ cid)) ∧
  ∀ err, r = Err err →
    (new = [CallFetchSandbox sid (Some err)] ∧
     logged = [Info ("Cleanup container " +:+ cid)]) ∨
    ∃ msg, last logged = Some (Warn err msg).
Proof.
  intros Hrun Htrace Hlog.
  unfold cleanupContainer in Hrun. unfold_shim. simpl in Hrun.
  run_steps.
  all: simpl in Hlog; repeat rewrite <- app_assoc in Hlog; simpl in Hlog.
  all: pose proof (f_equal snd Hrun) as Hs; simpl in Hs; subst σ'.
  all: simpl in Hlog; repeat rewrite <- app_assoc in Hlog; simpl in Hlog.
  all: apply new_events_inv in Hlog; subst logged.
  all: run_end Hrun Htrace.
  all: split; [done|]; intros err' [= <-] || intros err' [=].
  all: first [ left; split; reflexivity | right; eexists; reflexivity ].
Qed.

(** X7: a run of [cleanupContainer] that returns nil has made exactly these
    calls, in this order: fetch, status, the kill with SIGKILL for all the
    processes unless the state translates to stopped, stop, delete, unmount
    of the rootfs under the bundle with flags 0, the count, and the stop
    and the delete of the sandbox when the count is zero. *)
Theorem cleanupContainer_success_calls (σ : state) sid cid bundlePath σ' new :
  cleanupContainer sid cid bundlePath σ = (Ok tt, σ') →
  trace σ' = (trace σ ++ new)%list →
  ∃ sandboxID status delete_err unmount_err len,
    new =
      ([CallFetchSandbox sid None;
        CallSandboxStatusContainer sandboxID cid (inl status)]
       ++ (if String.eqb (oci_StateToOCIState (ContainerStatus_State status))
                oci_StateStopped
           then []
           else [CallKillContainer sid cid SIGKILL true None])
       ++ [CallStopContainer sid cid None;
           CallDeleteContainer sid cid delete_err;
           CallUnmountAll (filepath_Join bundlePath "rootfs") 0 unmount_err;
           CallGetAllContainers sandboxID len]
       ++ (if Nat.eqb len 0
           then [CallStopSandbox sid None; CallDeleteSandbox sid None]
           else []))%list.
Proof.
  intros Hrun Htrace.
  unfold cleanupContainer in Hrun. unfold_shim. simpl in Hrun.
  run_steps; try discriminate Hrun; run_end Hrun Htrace.
  all: match goal with
       | H : negb ?b = _ |- _ =>
           destruct b eqn:?; simpl in H; try discriminate H
       end.
  all: do 5 eexists.
  all: match goal with
       | H : (oci_StateToOCIState _ =? _) = _ |- _ => rewrite H
       end.
  all: match goal with
       | H : (length _ =? 0)%nat = _ |- _ => rewrite H
       end.
  all: reflexivity.
Qed.

(** X8: in a run of [deleteContainer] whose status query answers a state
    other than stopped, the stop is issued right after the query; when it
    fails its error is returned and nothing more is called, and when it
    succeeds the delete comes next. *)
Theorem deleteContainer_not_stopped (σ : state) c r σ' new sid id st :
  deleteContainer c σ = (r, σ') →
  trace σ' = (trace σ ++ new)%list →
  CallStatusContainer sid id (inl st) ∈ new →
  State_State (ContainerStatus_State st) ≠ vc_StateStopped →
  ∃ stop_err rest,
    new = CallStatusContainer sid id (inl st)
          :: CallStopContainer sid id stop_err :: rest ∧
    match stop_err with
    | Some err => r = Err err ∧ rest = []
    | None =>
        ∃ delete_err rest',
          rest = CallDeleteContainer sid id delete_err :: rest'
    end.
Proof.
  intros Hrun Htrace Hin Hst. apply String.eqb_neq in Hst.
  unfold deleteContainer in Hrun. unfold_shim. simpl in Hrun.
  repeat run_step; run_end Hrun Htrace; event_cases.
  all: try (rewrite Hst in *; discriminate).
  all: do 2 eexists; split; [reflexivity|]; simpl; eauto.
Qed.

(** X9: [deleteContainer] writes nothing but the two tables, and there
    only the entries of this container: the attached sandbox, the container
    object itself, the execs and the channels are as before, every other id
    and pid keeps its entry, and after a nil result the id and the pid of
    the container have none. *)
Theorem deleteContainer_frame (σ : state) c cv r σ' :
  container_mem σ !! c = Some cv →
  deleteContainer c σ = (r, σ') →
  sandbox (svc σ') = sandbox (svc σ) ∧
  container_mem σ' = container_mem σ ∧
  exec_mem σ' = exec_mem σ ∧
  chan_mem σ' = chan_mem σ ∧
  (∀ id, id ≠ container_id cv →
         containers (svc σ') !! id = containers (svc σ) !! id) ∧
  (∀ pid, pid ≠ container_pid cv →
          processes (svc σ') !! pid = processes (svc σ) !! pid) ∧
  (r = Ok tt →
   containers (svc σ') !! container_id cv = None ∧
   processes (svc σ') !! container_pid cv = None).
Proof.
  intros Hc Hrun.
  unfold deleteContainer in Hrun. unfold_shim. simpl in Hrun.
  repeat run_step.
  all: pose proof (f_equal fst Hrun) as Hr; simpl in Hr.
  all: pose proof (f_equal snd Hrun) as Hs; simpl in Hs; subst r σ'.
  all: simplify_eq; simpl.
  all: repeat split; try done.
  all: try (intros; by apply lookup_delete_ne).
  all: apply lookup_delete_eq.
Qed.

(** X10: [deleteContainer] has no guard like the one of [startContainer]:
    called on a service without sandbox it panics on [s.sandbox.ID()],
    before any call and with nothing written. *)
Theorem deleteContainer_no_sandbox (σ : state) c :
  sandbox (svc σ) = None →
  ∃ why, deleteContainer c σ = (Panic why, σ).
Proof.
  intros Hsb. unfold deleteContainer, mbind, M_bind, s_sandbox.
  rewrite Hsb. by eexists.
Qed.

End ShimMore.

(** ** More on start *)

Section StartMore.
Context {W SB Stream TtyIO Cmd : Type}.
Context `{!vci.VC W SB, !VCSandbox.Methods W SB Stream Cmd, !Deps W TtyIO}.

(** X11: past its two guards, [startContainer] first starts the sandbox
    when the container is of the sandbox type and the container itself
    otherwise, never both; when this call fails its error is returned,
    nothing more is called, and the container keeps its status. *)
Theorem startContainer_dispatch (σ : state) c cv sb r σ' new :
  container_mem σ !! c = Some cv →
  container_cType cv ≠ "" →
  sandbox (svc σ) = Some sb →
  startContainer c σ = (r, σ') →
  trace σ' = (trace σ ++ new)%list →
  ∃ err rest,
    new = (if IsSandbox (container_cType cv)
           then CallStartSandbox (VCSandbox.ID sb) err
           else CallStartContainer (VCSandbox.ID sb) (container_id cv) err)
          :: rest ∧
    count_events is_CallStartSandbox rest = 0 ∧
    count_events is_CallStartContainer rest = 0 ∧
    (∀ e, err = Some e →
          r = Err e ∧ rest = [] ∧
          container_mem σ' = container_mem σ ∧ chan_mem σ' = chan_mem σ).
Proof.
  intros Hc Hty Hsb Hrun Htrace. apply String.eqb_neq in Hty.
  unfold startContainer in Hrun. unfold_shim. simpl in Hrun.
  run_steps; run_end Hrun Htrace; simplify_eq.
  all: try (rewrite Hty in *; discriminate).
  all: do 2 eexists.
  all: match goal with Hkind : IsSandbox _ = _ |- _ => rewrite Hkind end.
  all: split; [reflexivity|].
  all: split; [done|]; split; [done|]; by intros e [= <-] || intros e [=].
Qed.

(** X12: when the streams cannot be opened or the terminal adapter cannot
    be made, [startContainer] returns that error with the container
    already marked running (everything else about the container as
    before): no channel is closed and no goroutine is launched. *)
Theorem startContainer_late_failure (σ : state) c cv r σ' new
    sid id pid stdin stdout stderr terminal err :
  container_mem σ !! c = Some cv →
  startContainer c σ = (r, σ') →
  trace σ' = (trace σ ++ new)%list →
  CallIOStream sid id pid (Some err) ∈ new ∨
  CallNewTtyIO stdin stdout stderr terminal (Some err) ∈ new →
  r = Err err ∧
  container_mem σ'
  = <[c := set_container_status StatusRunning cv]> (container_mem σ) ∧
  chan_mem σ' = chan_mem σ ∧
  count_events is_background new = 0.
Proof.
  intros Hc Hrun Htrace Hin.
  unfold startContainer in Hrun. unfold_shim. simpl in Hrun.
  run_steps; run_end Hrun Htrace; event_cases; simplify_eq; done.
Qed.



(** X15: for an exec entry whose terminal height or width is zero,
    [startExec] never calls [WinsizeProcess]. *)
Theorem startExec_no_winsize (σ : state) containerID execID c cv e ev t
    r σ' new :
  containers (svc σ) !! containerID = Some c →
  container_mem σ !! c = Some cv →
  container_execs cv !! execID = Some e →
  exec_mem σ !! e = Some ev →
  exec_tty ev = Some t →
  tty_height t = 0%N ∨ tty_width t = 0%N →
  startExec containerID execID σ = (r, σ') →
  trace σ' = (trace σ ++ new)%list →
  count_events is_CallWinsizeProcess new = 0.
Proof.
  intros Hs Hc He Hev Ht Hzero Hrun Htrace.
  assert (Hguard : negb (tty_height t =? 0)%N && negb (tty_width t =? 0)%N
                   = false).
  { destruct Hzero as [->| ->]; simpl; by rewrite ?andb_false_r. }
  unfold startExec, getContainer, getExec in Hrun.
  unfold_shim. simpl in Hrun.
  run_steps; run_end Hrun Htrace.
  all: simplify_eq; simpl in *; simplify_eq.
  all: try (rewrite Hguard in *; discriminate).
  all: done.
Qed.


(** X17: when [EnterContainer] fails, [startExec] returns an error that
    wraps its message after "cannot enter container <id>, with err "; it is
    the only call of the run, and the service, the exec entries and the
    containers are as before. *)
Theorem startExec_enter_failure (σ : state) containerID execID r σ' new
    sandboxID err :
  startExec containerID execID σ = (r, σ') →
  trace σ' = (trace σ ++ new)%list →
  CallEnterContainer sandboxID containerID (inr err) ∈ new →
  r = Err ("cannot enter container " +:+ containerID +:+ ", with err "
           +:+ err) ∧
  new = [CallEnterContainer sandboxID containerID (inr err)] ∧
  svc σ' = svc σ ∧
  exec_mem σ' = exec_mem σ ∧
  container_mem σ' = container_mem σ.
Proof.
  intros Hrun Htrace Hin.
  unfold startExec, getContainer, getExec in Hrun.
  unfold_shim. simpl in Hrun.
  run_steps; run_end Hrun Htrace; event_cases; simplify_eq; done.
Qed.


End StartMore.

(** ** The further theorems at concrete runs *)

Lemma getAddress_result_witness :
  getAddress "ns" "/pod/sb1" "c1" = ("/sock/ns/sb1", None) ∧
  ∃ validated ociSpec sandboxID,
    validCreateParams "c1" "/pod/sb1" = inl validated ∧
    oci_ParseConfigJSON validated = inl ociSpec ∧
    ContainerType ociSpec = inl vc_PodContainer ∧
    SandboxID ociSpec = inl sandboxID ∧
    cdshim_SocketAddress "ns" sandboxID = inl "/sock/ns/sb1".
Proof.
  assert (Hrun : getAddress "ns" "/pod/sb1" "c1" = ("/sock/ns/sb1", None))
    by reflexivity.
  split; [exact Hrun|].
  destruct (getAddress_result "ns" "/pod/sb1" "c1" "/sock/ns/sb1" None Hrun)
    as (_ & Hpod & _).
  apply Hpod. discriminate.
Defined.

Lemma cleanupContainer_sandbox_kept_witness :
  let σ := Mock.shim "pod_container" Fixtures.two_containers in
  let run := cleanupContainer "sb1" "c1" "/run/bundle/c1" σ in
  CallGetAllContainers "sb1" 1 ∈ trace run.2 ∧
  run.1 = Ok tt ∧
  count_events is_CallStopSandbox (trace run.2) = 0 ∧
  count_events is_CallDeleteSandbox (trace run.2) = 0.
Proof.
  intros σ run.
  assert (Hrun : run = (run.1, run.2)) by (vm_compute; reflexivity).
  assert (Htrace : trace run.2 = (trace σ ++ trace run.2)%list)
    by (vm_compute; reflexivity).
  assert (Hin : CallGetAllContainers "sb1" 1 ∈ trace run.2)
    by (vm_compute; event_in).
  assert (Hlen : (1 ≠ 0)%nat) by lia.
  split; [exact Hin|].
  destruct (cleanupContainer_sandbox_kept σ "sb1" "c1" "/run/bundle/c1"
              run.1 run.2 (trace run.2) "sb1" 1 Hrun Htrace Hin Hlen)
    as (Hr & _ & Hstop & Hdelete).
  split; [exact Hr|]. split; [exact Hstop|exact Hdelete].
Defined.

Lemma cleanupContainer_abort_witness :
  let σ := Mock.shim "pod_container"
             (Mock.one_container "running" ["KillContainer"]) in
  let run := cleanupContainer "sb1" "c1" "/run/bundle/c1" σ in
  CallKillContainer "sb1" "c1" SIGKILL true (Some "mock: KillContainer failed")
    ∈ trace run.2 ∧
  run.1 = Err "mock: KillContainer failed" ∧
  count_events is_teardown (trace run.2) = 0.
Proof.
  intros σ run.
  assert (Hrun : run = (run.1, run.2)) by (vm_compute; reflexivity).
  assert (Htrace : trace run.2 = (trace σ ++ trace run.2)%list)
    by (vm_compute; reflexivity).
  assert (Hin : CallKillContainer "sb1" "c1" SIGKILL true
                  (Some "mock: KillContainer failed") ∈ trace run.2)
    by (vm_compute; event_in).
  split; [exact Hin|].
  apply (cleanupContainer_abort σ "sb1" "c1" "/run/bundle/c1"
           run.1 run.2 (trace run.2) "sb1" "mock: KillContainer failed"
           Hrun Htrace).
  right. right. left. exact Hin.
Defined.

Lemma cleanupContainer_errors_logged_witness :
  let σ := Mock.shim "pod_container"
             (Mock.one_container "running" ["StopSandbox"]) in
  let run := cleanupContainer "sb1" "c1" "/run/bundle/c1" σ in
  run.1 = Err "mock: StopSandbox failed" ∧
  head (log run.2) = Some (Info "Cleanup container c1") ∧
  ∃ msg, last (log run.2) = Some (Warn "mock: StopSandbox failed" msg).
Proof.
  intros σ run.
  assert (Hrun : run = (run.1, run.2)) by (vm_compute; reflexivity).
  assert (Htrace : trace run.2 = (trace σ ++ trace run.2)%list)
    by (vm_compute; reflexivity).
  assert (Hlog : log run.2 = (log σ ++ log run.2)%list)
    by (vm_compute; reflexivity).
  assert (Hr : run.1 = Err "mock: StopSandbox failed")
    by (vm_compute; reflexivity).
  split; [exact Hr|].
  destruct (cleanupContainer_errors_logged σ "sb1" "c1" "/run/bundle/c1"
              run.1 run.2 (trace run.2) (log run.2) Hrun Htrace Hlog)
    as [Hhead Hlast].
  split; [exact Hhead|].
  destruct (Hlast "mock: StopSandbox failed" Hr) as [[Hnew _]|Hwarn].
  - vm_compute in Hnew. discriminate Hnew.
  - exact Hwarn.
Defined.

Lemma cleanupContainer_success_calls_witness :
  let σ := Mock.shim "pod_container" (Mock.one_container "running" []) in
  let run := cleanupContainer "sb1" "c1" "/run/bundle/c1" σ in
  run.1 = Ok tt ∧
  ∃ sandboxID status delete_err unmount_err len,
    trace run.2 =
      ([CallFetchSandbox "sb1" None;
        CallSandboxStatusContainer sandboxID "c1" (inl status)]
       ++ (if String.eqb (oci_StateToOCIState (ContainerStatus_State status))
                oci_StateStopped
           then []
           else [CallKillContainer "sb1" "c1" SIGKILL true None])
       ++ [CallStopContainer "sb1" "c1" None;
           CallDeleteContainer "sb1" "c1" delete_err;
           CallUnmountAll "/run/bundle/c1/rootfs" 0 unmount_err;
           CallGetAllContainers sandboxID len]
       ++ (if Nat.eqb len 0
           then [CallStopSandbox "sb1" None; CallDeleteSandbox "sb1" None]
           else []))%list.
Proof.
  intros σ run.
  assert (Hrun : run = (Ok tt, run.2)) by (vm_compute; reflexivity).
  assert (Htrace : trace run.2 = (trace σ ++ trace run.2)%list)
    by (vm_compute; reflexivity).
  split; [by vm_compute|].
  exact (cleanupContainer_success_calls σ "sb1" "c1" "/run/bundle/c1"
           run.2 (trace run.2) Hrun Htrace).
Defined.

Lemma deleteContainer_not_stopped_witness :
  let σ := Mock.shim "pod_container" (Mock.one_container "running" []) in
  let run := deleteContainer 1%positive σ in
  let running := {| ContainerStatus_State := {| State_State := "running" |} |} in
  CallStatusContainer "sb1" "c1" (inl running) ∈ trace run.2 ∧
  ∃ stop_err rest,
    trace run.2 = CallStatusContainer "sb1" "c1" (inl running)
                  :: CallStopContainer "sb1" "c1" stop_err :: rest.
Proof.
  intros σ run running.
  assert (Hrun : run = (run.1, run.2)) by (vm_compute; reflexivity).
  assert (Htrace : trace run.2 = (trace σ ++ trace run.2)%list)
    by (vm_compute; reflexivity).
  assert (Hin : CallStatusContainer "sb1" "c1" (inl running) ∈ trace run.2)
    by (vm_compute; event_in).
  assert (Hst : State_State (ContainerStatus_State running) ≠ vc_StateStopped)
    by (vm_compute; discriminate).
  split; [exact Hin|].
  destruct (deleteContainer_not_stopped σ 1%positive run.1 run.2
              (trace run.2) "sb1" "c1" running Hrun Htrace Hin Hst)
    as (stop_err & rest & Hnew & _).
  by exists stop_err, rest.
Defined.

Lemma deleteContainer_frame_witness :
  let σ := Fixtures.shim (Some "sb1") (Mock.cv1 "pod_container") Mock.ex1
             (Mock.one_container "stopped" []) in
  let run := deleteContainer 1%positive σ in
  run.1 = Ok tt ∧
  containers (svc run.2) !! "c1" = None ∧
  containers (svc run.2) !! "c2" = Some 2%positive ∧
  processes (svc run.2) !! 7%N = None ∧
  processes (svc run.2) !! 8%N = Some "" ∧
  container_mem run.2 = container_mem σ.
Proof.
  intros σ run.
  assert (Hrun : run = (run.1, run.2)) by (vm_compute; reflexivity).
  assert (Hc : container_mem σ !! 1%positive = Some (Mock.cv1 "pod_container"))
    by (vm_compute; reflexivity).
  assert (Hr : run.1 = Ok tt) by (vm_compute; reflexivity).
  destruct (deleteContainer_frame σ 1%positive (Mock.cv1 "pod_container")
              run.1 run.2 Hc Hrun)
    as (_ & Hmem & _ & _ & Hids & Hpids & Hgone).
  destruct (Hgone Hr) as [Hid Hpid].
  split; [exact Hr|]. split; [exact Hid|].
  split; [rewrite (Hids "c2") by discriminate; by vm_compute|].
  split; [exact Hpid|].
  split; [rewrite (Hpids 8%N) by discriminate; by vm_compute|].
  exact Hmem.
Defined.

Lemma deleteContainer_no_sandbox_witness :
  let σ := Fixtures.shim None (Mock.cv1 "pod_container") Mock.ex1
             (Mock.one_container "running" []) in
  sandbox (svc σ) = None ∧
  ∃ why, deleteContainer 1%positive σ = (Panic why, σ).
Proof.
  intros σ. split; [reflexivity|].
  exact (deleteContainer_no_sandbox σ 1%positive eq_refl).
Defined.

Lemma startContainer_dispatch_witness :
  let σ := Mock.shim "pod_sandbox" (Mock.one_container "ready" []) in
  let run := startContainer 1%positive σ in
  ∃ err rest,
    trace run.2 = CallStartSandbox "sb1" err :: rest ∧
    count_events is_CallStartContainer rest = 0.
Proof.
  intros σ run.
  assert (Hrun : run = (run.1, run.2)) by (vm_compute; reflexivity).
  assert (Htrace : trace run.2 = (trace σ ++ trace run.2)%list)
    by (vm_compute; reflexivity).
  assert (Hc : container_mem σ !! 1%positive = Some (Mock.cv1 "pod_sandbox"))
    by (vm_compute; reflexivity).
  assert (Hty : container_cType (Mock.cv1 "pod_sandbox") ≠ "")
    by (vm_compute; discriminate).
  assert (Hsb : sandbox (svc σ) = Some "sb1") by reflexivity.
  destruct (startContainer_dispatch σ 1%positive (Mock.cv1 "pod_sandbox")
              "sb1" run.1 run.2 (trace run.2) Hc Hty Hsb Hrun Htrace)
    as (err & rest & Hnew & _ & Hcount & _).
  by exists err, rest.
Defined.

Lemma startContainer_late_failure_witness :
  let σ := Mock.shim "pod_container"
             (Mock.one_container "ready" ["IOStream"]) in
  let run := startContainer 1%positive σ in
  CallIOStream "sb1" "c1" "c1" (Some "mock: IOStream failed") ∈ trace run.2 ∧
  run.1 = Err "mock: IOStream failed" ∧
  container_status <$> container_mem run.2 !! 1%positive
  = Some StatusRunning ∧
  count_events is_background (trace run.2) = 0.
Proof.
  intros σ run.
  assert (Hrun : run = (run.1, run.2)) by (vm_compute; reflexivity).
  assert (Htrace : trace run.2 = (trace σ ++ trace run.2)%list)
    by (vm_compute; reflexivity).
  assert (Hc : container_mem σ !! 1%positive
               = Some (Mock.cv1 "pod_container"))
    by (vm_compute; reflexivity).
  assert (Hin : CallIOStream "sb1" "c1" "c1" (Some "mock: IOStream failed")
                ∈ trace run.2)
    by (vm_compute; event_in).
  split; [exact Hin|].
  destruct (startContainer_late_failure σ 1%positive
              (Mock.cv1 "pod_container") run.1 run.2 (trace run.2)
              "sb1" "c1" "c1" "" "" "" false "mock: IOStream failed"
              Hc Hrun Htrace (or_introl Hin))
    as (Hr & Hmem & _ & Hcount).
  split; [exact Hr|]. split; [|exact Hcount].
  rewrite Hmem, lookup_insert_eq. reflexivity.
Defined.



Example startContainer_twice_panics :
  let σ := Mock.shim "pod_container" (Mock.one_container "ready" []) in
  (startContainer 1%positive (startContainer 1%positive σ).2).1
  = Panic "close of closed channel".
Proof. by vm_compute. Qed.

Lemma startExec_no_winsize_witness :
  let σ := Fixtures.shim (Some "sb1") (Mock.cv1 "pod_container") Fixtures.ex0
             (Mock.one_container "running" []) in
  let run := startExec "c1" "e1" σ in
  run.1 = Ok 1%positive ∧
  count_events is_CallWinsizeProcess (trace run.2) = 0.
Proof.
  intros σ run.
  assert (Hrun : run = (run.1, run.2)) by (vm_compute; reflexivity).
  assert (Htrace : trace run.2 = (trace σ ++ trace run.2)%list)
    by (vm_compute; reflexivity).
  assert (Hs : containers (svc σ) !! "c1" = Some 1%positive)
    by (vm_compute; reflexivity).
  assert (Hc : container_mem σ !! 1%positive
               = Some (Mock.cv1 "pod_container"))
    by (vm_compute; reflexivity).
  assert (He : container_execs (Mock.cv1 "pod_container") !! "e1"
               = Some 1%positive)
    by (vm_compute; reflexivity).
  assert (Hev : exec_mem σ !! 1%positive = Some Fixtures.ex0)
    by (vm_compute; reflexivity).
  split; [by vm_compute|].
  exact (startExec_no_winsize σ "c1" "e1" 1%positive
           (Mock.cv1 "pod_container") 1%positive Fixtures.ex0 _
           run.1 run.2 (trace run.2) Hs Hc He Hev eq_refl
           (or_introl eq_refl) Hrun Htrace).
Defined.


Example startExec_success_run :
  let σ := Mock.shim "pod_container" (Mock.one_container "running" []) in
  let run := startExec "c1" "e1" σ in
  run.1 = Ok 1%positive ∧
  processes (svc run.2) !! 100%N = Some "e1" ∧
  trace run.2 =
    [ CallEnterContainer "sb1" "c1" (inl "token-c1");
      CallWinsizeProcess "sb1" "c1" "token-c1" 24 80 None;
      CallIOStream "sb1" "c1" "token-c1" None;
      CallNewTtyIO "/run/e1/stdin" "/run/e1/stdout" "" true None;
      GoIoCopy (Some 2%positive);
      GoWait 1%positive "e1" ].
Proof. by vm_compute. Qed.

Lemma startExec_enter_failure_witness :
  let σ := Mock.shim "pod_container"
             (Mock.one_container "running" ["EnterContainer"]) in
  let run := startExec "c1" "e1" σ in
  CallEnterContainer "sb1" "c1" (inr "mock: EnterContainer failed")
    ∈ trace run.2 ∧
  run.1 = Err "cannot enter container c1, with err mock: EnterContainer failed"
  ∧ svc run.2 = svc σ ∧ exec_mem run.2 = exec_mem σ.
Proof.
  intros σ run.
  assert (Hrun : run = (run.1, run.2)) by (vm_compute; reflexivity).
  assert (Htrace : trace run.2 = (trace σ ++ trace run.2)%list)
    by (vm_compute; reflexivity).
  assert (Hin : CallEnterContainer "sb1" "c1"
                  (inr "mock: EnterContainer failed") ∈ trace run.2)
    by (vm_compute; event_in).
  split; [exact Hin|].
  destruct (startExec_enter_failure σ "c1" "e1" run.1 run.2 (trace run.2)
              "sb1" "mock: EnterContainer failed" Hrun Htrace Hin)
    as (Hr & _ & Hsvc & Hmem & _).
  split; [exact Hr|]. split; [exact Hsvc|exact Hmem].
Defined.

